(** * pywizlight fan support: a shallow embedding of [pywizlight/fan.py]

    The development follows the layout of the Python module:

    - [PyValue]: the values that travel on the wire (JSON-like Python
      objects), Python truthiness, [==] against a string literal, and the
      text produced by [repr] and [str];
    - [Runtime]: the store of dictionary objects, the log of the module's
      logger, the trace of commands handed to the transport, and the monad
      in which the methods run (state, exceptions);
    - [FanPilotBuilder]: the payload builder;
    - [WizFan]: the device wrapper, parameterised by the transport
      collaborator [_do_command] inherited from [WizDevice];
    - the theorems, one block per property of the specification.

    [get_speed] and the registration of the discovery keys are left out:
    no property below depends on them. *)

From Stdlib Require Import ZArith String Ascii DecimalString DecimalPos DecimalZ.
From Stdlib Require Import List Bool Lia.
From stdpp Require Import base list strings.

Set Warnings "-register-all".

Open Scope string_scope.
Open Scope list_scope.
Open Scope stdpp_scope.
Open Scope Z_scope.

(* ====================================================================== *)
(** ** Python values                                                       *)
(* ====================================================================== *)

Module PyValue.

(** The objects found in payloads and replies: [None], booleans, integers
    (unbounded, as in Python), strings, lists and dictionaries with string
    keys.  A dictionary is an association list in insertion order, which is
    the order Python keeps and the order [repr] prints.  Strings are
    sequences of code points below 256.  Floating-point numbers are left
    out. *)
Inductive pyval : Type :=
| VNone
| VBool (b : bool)
| VInt (z : Z)
| VStr (s : string)
| VList (l : list pyval)
| VDict (d : list (string * pyval)).

Abbreviation dict := (list (string * pyval)).

(** [d.get(k)]: the value bound to [k], [None] when there is none. *)
Fixpoint dict_get (k : string) (d : dict) : option pyval :=
  match d with
  | [] => None
  | (k', v) :: d' => if String.eqb k k' then Some v else dict_get k d'
  end.

(** [d[k] = v]: an existing key keeps its position, a new key goes last. *)
Fixpoint dict_set (k : string) (v : pyval) (d : dict) : dict :=
  match d with
  | [] => [(k, v)]
  | (k', v') :: d' =>
      if String.eqb k k' then (k', v) :: d' else (k', v') :: dict_set k v d'
  end.

(** [del d[k]] on a key that is present. *)
Fixpoint dict_remove (k : string) (d : dict) : dict :=
  match d with
  | [] => []
  | (k', v') :: d' =>
      if String.eqb k k' then d' else (k', v') :: dict_remove k d'
  end.

Definition keys (d : dict) : list string := map fst d.

(** [x.get(k)] as Python sees it: a missing key reads as [None]. *)
Definition get_or_none (k : string) (d : dict) : pyval :=
  match dict_get k d with
  | Some v => v
  | None => VNone
  end.

(** [bool(v)]. *)
Definition truthy (v : pyval) : bool :=
  match v with
  | VNone => false
  | VBool b => b
  | VInt z => negb (z =? 0)
  | VStr s => negb (String.eqb s "")
  | VList l => match l with [] => false | _ => true end
  | VDict d => match d with [] => false | _ => true end
  end.

(** [a or b]. *)
Definition py_or (a b : pyval) : pyval := if truthy a then a else b.

(** [v == "lit"] for a string literal: only an equal string compares equal. *)
Definition eq_str (v : pyval) (lit : string) : bool :=
  match v with
  | VStr s => String.eqb s lit
  | _ => false
  end.

(** *** [repr] and [str] *)

Definition squote : ascii := "'"%char.
Definition dquote : ascii := ascii_of_nat 34.
Definition backslash : ascii := "\"%char.

Definition hex_digit (n : nat) : ascii :=
  match n with
  | 0%nat => "0" | 1%nat => "1" | 2%nat => "2" | 3%nat => "3"
  | 4%nat => "4" | 5%nat => "5" | 6%nat => "6" | 7%nat => "7"
  | 8%nat => "8" | 9%nat => "9" | 10%nat => "a" | 11%nat => "b"
  | 12%nat => "c" | 13%nat => "d" | 14%nat => "e" | _ => "f"
  end%char.

(** [str.isprintable] on one code point below 256. *)
Definition printable (c : ascii) : bool :=
  let n := nat_of_ascii c in
  ((32 <=? n) && (n <=? 126) || (161 <=? n) && negb (n =? 173))%nat.

(** One character of a string literal, inside quotes [q]. *)
Definition escape_char (q c : ascii) : string :=
  if Ascii.eqb c q || Ascii.eqb c backslash then String backslash (String c "")
  else if Ascii.eqb c (ascii_of_nat 9) then "\t"
  else if Ascii.eqb c (ascii_of_nat 10) then "\n"
  else if Ascii.eqb c (ascii_of_nat 13) then "\r"
  else if printable c then String c ""
  else
    let n := nat_of_ascii c in
    String backslash
      (String "x" (String (hex_digit (n / 16)) (String (hex_digit (n mod 16)) ""))).

Fixpoint escape (q : ascii) (s : string) : string :=
  match s with
  | EmptyString => ""
  | String c s' => escape_char q c +:+ escape q s'
  end.

Fixpoint contains (c : ascii) (s : string) : bool :=
  match s with
  | EmptyString => false
  | String c' s' => Ascii.eqb c' c || contains c s'
  end.

(** Python quotes with ['] unless the string has a ['] and no double quote. *)
Definition quote_of (s : string) : ascii :=
  if contains squote s && negb (contains dquote s) then dquote else squote.

Definition repr_str (s : string) : string :=
  let q := quote_of s in
  String q (escape q s +:+ String q "").

Definition repr_int (z : Z) : string := NilZero.string_of_int (Z.to_int z).

Fixpoint repr (v : pyval) : string :=
  match v with
  | VNone => "None"
  | VBool true => "True"
  | VBool false => "False"
  | VInt z => repr_int z
  | VStr s => repr_str s
  | VList l => "[" +:+ String.concat ", " (map repr l) +:+ "]"
  | VDict d =>
      "{" +:+ String.concat ", "
                (map (fun kv => repr_str (fst kv) +:+ ": " +:+ repr (snd kv)) d)
          +:+ "}"
  end.

Definition repr_dict (d : dict) : string := repr (VDict d).

(** [str(v)], what an f-string field without conversion prints. *)
Definition str (v : pyval) : string :=
  match v with
  | VStr s => s
  | _ => repr v
  end.

End PyValue.
Import PyValue.

(* ====================================================================== *)
(** ** Exceptions, the object store and the method monad                   *)
(* ====================================================================== *)

Module Runtime.

(** The exception classes the module names, each with its message, and one
    constructor for any other exception a collaborator may raise. *)
Inductive exn : Type :=
| ValueError (msg : string)
| KeyError (msg : string)
| WizLightConnectionError (msg : string)
| WizLightTimeOutError (msg : string)
| WizLightProtocolError (msg : string)
| OtherException (msg : string).

(** [str(exc)]. *)
Definition exn_str (e : exn) : string :=
  match e with
  | ValueError m | KeyError m | WizLightConnectionError m
  | WizLightTimeOutError m | WizLightProtocolError m | OtherException m => m
  end.

(** [except (WizLightConnectionError, WizLightTimeOutError)]. *)
Definition is_transport_failure (e : exn) : bool :=
  match e with
  | WizLightConnectionError _ | WizLightTimeOutError _ => true
  | _ => false
  end.

Inductive log_level : Type := WARNING | ERROR.

(** A record handed to [_LOGGER]: level, format string and arguments. *)
Record log_record : Type := LogRecord {
  level : log_level;
  fmt : string;
  args : list string
}.

(** Addresses of dictionary objects. *)
Definition loc := nat.

(** One command handed to the transport: its name and the parameters as
    they were when it was handed over. *)
Definition command : Type := string * dict.

(** The transport collaborator: given the commands handed to it so far, a
    command name and its parameters, it raises or returns a reply. *)
Definition transport_t : Type := list command -> string -> dict -> exn + dict.

(** What a run can touch: the dictionary objects (by address, never
    freed), the commands handed to the transport so far (oldest first) and
    the records logged so far (oldest first). *)
Record World : Type := mkWorld {
  heap : list dict;
  sent : list command;
  logs : list log_record
}.

Definition set_heap (h : list dict) (w : World) : World :=
  mkWorld h (sent w) (logs w).
Definition add_sent (c : command) (w : World) : World :=
  mkWorld (heap w) (sent w ++ [c]) (logs w).
Definition add_log (r : log_record) (w : World) : World :=
  mkWorld (heap w) (sent w) (logs w ++ [r]).

(** How a call ends: with a value, with a raised exception, or with a
    fault when it is given an address that holds no object (no Python run
    does that: every reference points to a live object). *)
Inductive result (A : Type) : Type :=
| Ok (a : A)
| Raise (e : exn)
| Fault.
Arguments Ok {A} a.
Arguments Raise {A} e.
Arguments Fault {A}.

Definition M (A : Type) : Type := World -> result A * World.

Definition ret {A} (a : A) : M A := fun w => (Ok a, w).

Definition bind {A B} (m : M A) (k : A -> M B) : M B :=
  fun w =>
    match m w with
    | (Ok a, w') => k a w'
    | (Raise e, w') => (Raise e, w')
    | (Fault, w') => (Fault, w')
    end.

Definition raise {A} (e : exn) : M A := fun w => (Raise e, w).

(** A pure computation that may raise. *)
Definition lift {A} (r : result A) : M A := fun w => (r, w).

(** [try: m  except <classes> as exc: handler exc]. *)
Definition try_except {A} (m : M A) (caught : exn -> bool) (handler : exn -> M A)
  : M A :=
  fun w =>
    match m w with
    | (Raise e, w') => if caught e then handler e w' else (Raise e, w')
    | r => r
    end.

Declare Scope py_scope.
Delimit Scope py_scope with py.
Notation "x <- m ;; k" := (bind m (fun x => k))
  (at level 100, m at next level, right associativity) : py_scope.
Notation "m ;; k" := (bind m (fun _ => k))
  (at level 100, right associativity) : py_scope.
Open Scope py_scope.

(** *** Dictionary objects *)

(** A dictionary display or [dict(...)]: a new object. *)
Definition alloc (d : dict) : M loc :=
  fun w => (Ok (length (heap w)), set_heap (heap w ++ [d]) w).

(** The current contents of the object at [l]. *)
Definition load (l : loc) : M dict :=
  fun w =>
    match heap w !! l with
    | Some d => (Ok d, w)
    | None => (Fault, w)
    end.

Definition store (l : loc) (d : dict) : M unit :=
  fun w =>
    match heap w !! l with
    | Some _ => (Ok tt, set_heap (<[l := d]> (heap w)) w)
    | None => (Fault, w)
    end.

(** [obj[k] = v]. *)
Definition setitem (l : loc) (k : string) (v : pyval) : M unit :=
  d <- load l ;; store l (dict_set k v d).

(** [del obj[k]]. *)
Definition delitem (l : loc) (k : string) : M unit :=
  d <- load l ;;
  match dict_get k d with
  | Some _ => store l (dict_remove k d)
  | None => raise (KeyError (repr_str k))
  end.

(** [obj.clear()]. *)
Definition clear (l : loc) : M unit :=
  _ <- load l ;; store l [].

(** *** Logging *)

Definition log (lv : log_level) (f : string) (a : list string) : M unit :=
  fun w => (Ok tt, add_log (LogRecord lv f a) w).

End Runtime.
Import Runtime.

(* ====================================================================== *)
(** ** Enumerations                                                        *)
(* ====================================================================== *)

Inductive FanMode : Type := NORMAL | BREEZE.

Inductive FanReverse : Type := SUMMER | WINTER.

(** [int(value)] on the members of the two [IntEnum]s. *)
Definition FanMode_int (m : FanMode) : Z :=
  match m with NORMAL => 1 | BREEZE => 2 end.

Definition FanReverse_int (r : FanReverse) : Z :=
  match r with SUMMER => 0 | WINTER => 1 end.

(** [FanMode(v)]: the member whose value equals [v] ([True == 1] in
    Python), [ValueError] when there is none. *)
Definition FanMode_of (v : pyval) : result FanMode :=
  match v with
  | VInt 1 | VBool true => Ok NORMAL
  | VInt 2 => Ok BREEZE
  | _ => Raise (ValueError (repr v +:+ " is not a valid FanMode"))
  end.

(** [value in range(lo, hi)] for an integer. *)
Definition in_range (lo hi value : Z) : bool := (lo <=? value) && (value <? hi).

(** [int(v)].  How Python reads an integer out of a string is left as the
    parameter [int_of_str]; [None], lists and dictionaries raise
    [TypeError], which [OtherException] stands for here. *)
Definition py_int (int_of_str : string -> result Z) (v : pyval) : result Z :=
  match v with
  | VInt z => Ok z
  | VBool b => Ok (if b then 1 else 0)
  | VStr s => int_of_str s
  | VNone =>
      Raise (OtherException
               "int() argument must be a string, a bytes-like object or a real number, not 'NoneType'")
  | VList _ =>
      Raise (OtherException
               "int() argument must be a string, a bytes-like object or a real number, not 'list'")
  | VDict _ =>
      Raise (OtherException
               "int() argument must be a string, a bytes-like object or a real number, not 'dict'")
  end.

(* ====================================================================== *)
(** ** Pilot builder                                                       *)
(* ====================================================================== *)

Module FanPilotBuilder.

(** An instance: its only slot holds the address of the payload
    dictionary. *)
Record t : Type := Build { _payload : loc }.

Definition speed (self : t) (value : Z) : M t :=
  if negb (in_range 1 7 value) then
    raise (ValueError "fanSpeed must be between 1 and 6 inclusive")
  else
    setitem (_payload self) "fanSpeed" (VInt value) ;;
    ret self.

Definition mode (self : t) (value : FanMode) : M t :=
  setitem (_payload self) "fanMode" (VInt (FanMode_int value)) ;;
  ret self.

Definition reverse (self : t) (value : FanReverse) : M t :=
  setitem (_payload self) "fanRevrs" (VInt (FanReverse_int value)) ;;
  ret self.

(** [if arg is not None: method(arg)]. *)
Definition when_given {A} (arg : option A) (method : A -> M t) : M unit :=
  match arg with
  | Some a => method a ;; ret tt
  | None => ret tt
  end.

(** [FanPilotBuilder(speed=..., mode=..., reverse=...)]. *)
Definition __init__ (speed_arg : option Z) (mode_arg : option FanMode)
    (reverse_arg : option FanReverse) : M t :=
  p <- alloc [] ;;
  let self := Build p in
  when_given speed_arg (speed self) ;;
  when_given mode_arg (mode self) ;;
  when_given reverse_arg (reverse self) ;;
  ret self.

(** The [payload] property: [dict(self._payload)], a new object with the
    same items. *)
Definition payload (self : t) : M loc :=
  d <- load (_payload self) ;; alloc d.

Definition __bool__ (self : t) : M bool :=
  d <- load (_payload self) ;; ret (truthy (VDict d)).

End FanPilotBuilder.

(* ====================================================================== *)
(** ** WizFan device                                                       *)
(* ====================================================================== *)

Definition FAN_STATE_OFF : Z := 0.
Definition FAN_STATE_ON : Z := 1.

Module WizFan.

(** [_validate_response(response, sent)].  The parameters arrive as the
    contents of the dictionary that was sent. *)
Definition error_code (response : dict) : pyval :=
  py_or (get_or_none "error" response) (get_or_none "result" response).

Definition protocol_message (sent_params response : dict) (code : pyval) : string :=
  "Unexpected response to setPilot " +:+ repr_dict sent_params +:+ ": "
    +:+ repr_dict response +:+ " (error=" +:+ str code +:+ ")".

Definition _validate_response (response sent_params : dict) : result unit :=
  if eq_str (get_or_none "result" response) "ok" then Ok tt
  else
    Raise (WizLightProtocolError
             (protocol_message sent_params response (error_code response))).

Section Device.

(** The transport inherited from [WizDevice]: what the device layer
    answers to a command, given the commands handed to it before.  It
    either raises or returns the reply mapping. *)
Variable transport : transport_t.

(** [self.ip]. *)
Variable ip : string.

(** [self._do_command(name, params)]: the command joins the trace, and the
    transport decides the outcome. *)
Definition _do_command (name : string) (params : loc) : M dict :=
  fun w =>
    match heap w !! params with
    | None => (Fault, w)
    | Some d =>
        (match transport (sent w) name d with
         | inl e => Raise e
         | inr reply => Ok reply
         end, add_sent (name, d) w)
    end.

Definition _send_pilot (params : loc) : M unit :=
  d <- load params ;;
  if negb (truthy (VDict d)) then ret tt
  else
    response <-
      try_except (_do_command "setPilot" params) is_transport_failure
        (fun exc =>
           log ERROR "%s: UDP send failed: %s" [ip; exn_str exc] ;;
           raise exc) ;;
    d' <- load params ;;
    lift (_validate_response response d').

Definition _send_state (state : Z) : M unit :=
  if negb ((state =? FAN_STATE_OFF) || (state =? FAN_STATE_ON)) then
    raise (ValueError "fanState must be 0 (off) or 1 (on)")
  else
    p <- alloc [("fanState", VInt state)] ;;
    _send_pilot p.

Definition is_not_none {A} (o : option A) : bool :=
  match o with Some _ => true | None => false end.

Definition turn_on (speed : option Z) (mode : option FanMode)
    (reverse : option FanReverse) : M unit :=
  _send_state FAN_STATE_ON ;;
  if is_not_none speed || is_not_none mode || is_not_none reverse then
    builder <- FanPilotBuilder.__init__ speed mode reverse ;;
    p <- FanPilotBuilder.payload builder ;;
    _send_pilot p
  else ret tt.

Definition turn_off : M unit := _send_state FAN_STATE_OFF.

Definition set_speed (speed : Z) : M unit :=
  builder <- FanPilotBuilder.__init__ (Some speed) None None ;;
  p <- FanPilotBuilder.payload builder ;;
  _send_pilot p.

Definition set_mode (mode : FanMode) : M unit :=
  builder <- FanPilotBuilder.__init__ None (Some mode) None ;;
  p <- FanPilotBuilder.payload builder ;;
  _send_pilot p.

Definition set_reverse (reverse : FanReverse) : M unit :=
  builder <- FanPilotBuilder.__init__ None None (Some reverse) ;;
  p <- FanPilotBuilder.payload builder ;;
  _send_pilot p.

Definition get_status : M dict :=
  try_except (p <- alloc [] ;; _do_command "getPilot" p) is_transport_failure
    (fun exc =>
       log WARNING "%s: could not fetch status: %s" [ip; exn_str exc] ;;
       raise exc).

(** [FanMode(status.get("fanMode", FanMode.NORMAL))]. *)
Definition get_mode : M FanMode :=
  status <- get_status ;;
  match dict_get "fanMode" status with
  | Some v => lift (FanMode_of v)
  | None => ret NORMAL
  end.

(** [bool(status.get("fanRevrs", FanReverse.SUMMER))]. *)
Definition is_reversed : M bool :=
  status <- get_status ;;
  match dict_get "fanRevrs" status with
  | Some v => ret (truthy v)
  | None => ret false
  end.

End Device.

Section Speed.

Variable transport : transport_t.
Variable ip : string.

(** [int] on strings. *)
Variable int_of_str : string -> result Z.

(** [int(status.get("fanSpeed", 0))]. *)
Definition get_speed : M Z :=
  status <- get_status transport ip ;;
  match dict_get "fanSpeed" status with
  | Some v => lift (py_int int_of_str v)
  | None => lift (py_int int_of_str (VInt 0))
  end.

End Speed.

End WizFan.

(* ====================================================================== *)
(** ** Vocabulary of the properties                                        *)
(* ====================================================================== *)

(** The wire parameter names. *)
Definition power_field : string := "fanState".
Definition speed_field : string := "fanSpeed".
Definition mode_field : string := "fanMode".
Definition direction_field : string := "fanRevrs".

(** The apply-command carrying payload [d]. *)
Definition apply_command (d : dict) : command := ("setPilot", d).

(** The query-command, with its empty request body. *)
Definition query_command : command := ("getPilot", []).

(** A reply carries the success marker with the affirmative value. *)
Definition accepted (reply : dict) : bool :=
  match dict_get "result" reply with
  | Some (VStr s) => String.eqb s "ok"
  | _ => false
  end.

(** How an apply-command with payload [d] ends when the transport has seen
    [history]: the transport's exception, or the verdict on its reply. *)
Definition apply_outcome (transport : transport_t) (history : list command)
    (d : dict) : result unit :=
  match transport history "setPilot" d with
  | inl e => Raise e
  | inr reply => WizFan._validate_response reply d
  end.

(** The apply-command succeeds: the transport returns a reply and the reply
    is accepted. *)
Definition apply_succeeds (transport : transport_t) (history : list command)
    (d : dict) : bool :=
  match transport history "setPilot" d with
  | inr reply => accepted reply
  | inl _ => false
  end.

(** The records the two [except] clauses log. *)
Definition send_failed_record (ip : string) (exc : exn) : log_record :=
  LogRecord ERROR "%s: UDP send failed: %s" [ip; exn_str exc].
Definition status_failed_record (ip : string) (exc : exn) : log_record :=
  LogRecord WARNING "%s: could not fetch status: %s" [ip; exn_str exc].

(** The world after an apply-command with payload [d] was handed to the
    transport and the transport raised [e]. *)
Definition after_failed_send (ip : string) (d : dict) (e : exn) (w : World) : World :=
  if is_transport_failure e
  then add_log (send_failed_record ip e) (add_sent (apply_command d) w)
  else add_sent (apply_command d) w.

(** Calls a client can make on a builder it holds. *)
Inductive builder_op : Type :=
| OpSpeed (value : Z)
| OpMode (value : FanMode)
| OpReverse (value : FanReverse).

Definition run_op (b : FanPilotBuilder.t) (o : builder_op) : M FanPilotBuilder.t :=
  match o with
  | OpSpeed v => FanPilotBuilder.speed b v
  | OpMode m => FanPilotBuilder.mode b m
  | OpReverse r => FanPilotBuilder.reverse b r
  end.

(** A sequence of calls; a call that raises is caught by the client, which
    goes on with the next one. *)
Fixpoint run_ops (b : FanPilotBuilder.t) (os : list builder_op) (w : World) : World :=
  match os with
  | [] => w
  | o :: os' => run_ops b os' (snd (run_op b o w))
  end.

(** What a client can do to a dictionary it was handed. *)
Inductive mutation : Type :=
| MSet (k : string) (v : pyval)
| MDel (k : string)
| MClear.

Definition mutate (l : loc) (m : mutation) : M unit :=
  match m with
  | MSet k v => setitem l k v
  | MDel k => delitem l k
  | MClear => clear l
  end.

Fixpoint mutate_all (l : loc) (ms : list mutation) (w : World) : World :=
  match ms with
  | [] => w
  | m :: ms' => mutate_all l ms' (snd (mutate l m w))
  end.

(** The commands a call adds to the trace when it runs in [w]. *)
Definition sent_by {A} (m : M A) (w : World) : list command :=
  drop (length (sent w)) (sent (snd (m w))).

(** The keys a builder can write. *)
Definition allowed_keys : list string := [speed_field; mode_field; direction_field].

Definition only_allowed_keys (d : dict) : Prop :=
  forall k, k ∈ keys d -> k ∈ allowed_keys.

(** The builder's mapping holds only allowed keys, and stays where it is. *)
Definition builder_inv (b : FanPilotBuilder.t) (w : World) : Prop :=
  exists d, heap w !! FanPilotBuilder._payload b = Some d /\ only_allowed_keys d.

(** A text that may follow a printed value: it does not begin with a
    decimal digit. *)
Definition is_digit (c : ascii) : bool :=
  let n := nat_of_ascii c in ((48 <=? n) && (n <=? 57))%nat.

Definition follow_ok (r : string) : Prop :=
  match r with
  | EmptyString => True
  | String c _ => is_digit c = false
  end.

(** Reading back the first character of an escaped string body inside
    quotes [q]: [None] at the closing quote or on text [escape] does not
    produce. *)
Definition unhex (c : ascii) : option nat :=
  let n := nat_of_ascii c in
  if ((48 <=? n) && (n <=? 57))%nat then Some (n - 48)%nat
  else if ((97 <=? n) && (n <=? 102))%nat then Some (n - 87)%nat
  else None.

Definition unescape_head (q : ascii) (s : string) : option (ascii * string) :=
  match s with
  | EmptyString => None
  | String c s1 =>
      if Ascii.eqb c backslash then
        match s1 with
        | EmptyString => None
        | String e s2 =>
            if Ascii.eqb e "x" then
              match s2 with
              | String h1 (String h2 s3) =>
                  match unhex h1, unhex h2 with
                  | Some a, Some b => Some (ascii_of_nat (16 * a + b)%nat, s3)
                  | _, _ => None
                  end
              | _ => None
              end
            else if Ascii.eqb e "t" then Some (ascii_of_nat 9, s2)
            else if Ascii.eqb e "n" then Some (ascii_of_nat 10, s2)
            else if Ascii.eqb e "r" then Some (ascii_of_nat 13, s2)
            else Some (e, s2)
        end
      else if Ascii.eqb c q then None
      else Some (c, s1)
  end.

(** The constructor a printed value begins with, read off its first
    character; 0 is for characters no printed value begins with. *)
Definition head_tag (c : ascii) : nat :=
  (if Ascii.eqb c "N" then 1
   else if Ascii.eqb c "T" then 2
   else if Ascii.eqb c "F" then 3
   else if is_digit c || Ascii.eqb c "-" then 4
   else if Ascii.eqb c squote || Ascii.eqb c dquote then 5
   else if Ascii.eqb c "[" then 6
   else if Ascii.eqb c "{" then 7
   else 0)%nat.

Definition tag (v : pyval) : nat :=
  match v with
  | VNone => 1
  | VBool true => 2
  | VBool false => 3
  | VInt _ => 4
  | VStr _ => 5
  | VList _ => 6
  | VDict _ => 7
  end%nat.

(** The text of [x], printed by [f], can be told from what follows it. *)
Definition decodable {A} (f : A -> string) (x : A) : Prop :=
  forall (y : A) (r1 r2 : string),
    f x +:+ r1 = f y +:+ r2 -> follow_ok r1 -> follow_ok r2 -> x = y /\ r1 = r2.

(** One item of a printed dictionary. *)
Definition repr_item (kv : string * pyval) : string :=
  repr_str (fst kv) +:+ ": " +:+ repr (snd kv).

(** What [", ".join] prints after the first item. *)
Fixpoint joined_tail {A} (f : A -> string) (l : list A) (r : string) : string :=
  match l with
  | [] => r
  | y :: l' => ", " +:+ f y +:+ joined_tail f l' r
  end.

(** Sample devices and worlds, for the examples. *)
Definition sample_ip : string := "192.168.1.20".

Definition empty_world : World := mkWorld [] [] [].

Definition ok_device : transport_t :=
  fun _ _ _ => inr [("result", VStr "ok")].

Definition refusing_device : transport_t :=
  fun _ _ _ => inr [("result", VStr "error"); ("error", VStr "invalid")].

Definition timeout_device : transport_t :=
  fun _ _ _ => inl (WizLightTimeOutError "timed out").

(** A device that answers status queries with [status] and accepts every
    other command. *)
Definition reporting_device (status : dict) : transport_t :=
  fun _ name _ =>
    if String.eqb name "getPilot" then inr status else inr [("result", VStr "ok")].

(** The error indicator as the specification words it: the error field when
    the reply has one, otherwise whatever the result field holds. *)
Definition indicator_by_presence (response : dict) : pyval :=
  match dict_get "error" response with
  | Some v => v
  | None => get_or_none "result" response
  end.

(** The dictionary a constructor call leaves in the builder. *)
Definition with_field {A} (k : string) (f : A -> pyval) (arg : option A) (d : dict)
  : dict :=
  match arg with
  | Some a => dict_set k (f a) d
  | None => d
  end.

Definition initial_payload (sp : option Z) (md : option FanMode)
    (rv : option FanReverse) : dict :=
  with_field "fanRevrs" (fun r => VInt (FanReverse_int r)) rv
    (with_field "fanMode" (fun m => VInt (FanMode_int m)) md
       (with_field "fanSpeed" VInt sp [])).

Definition speed_ok (sp : option Z) : bool :=
  match sp with
  | Some v => in_range 1 7 v
  | None => true
  end.

(** The items a list of optional fields stands for, in the order speed,
    mode, direction. *)
Definition given_fields (sp : option Z) (md : option FanMode)
    (rv : option FanReverse) : dict :=
  match sp with Some v => [(speed_field, VInt v)] | None => [] end
  ++ match md with Some m => [(mode_field, VInt (FanMode_int m))] | None => [] end
  ++ match rv with Some r => [(direction_field, VInt (FanReverse_int r))] | None => [] end.

(** A speed argument that the builder accepts. *)
Definition valid_speed (sp : option Z) : Prop :=
  match sp with
  | Some v => 1 <= v <= 6
  | None => True
  end.

(** Whether a call on the builder goes through, and the item it writes. *)
Definition op_applies (o : builder_op) : bool :=
  match o with
  | OpSpeed v => in_range 1 7 v
  | OpMode _ | OpReverse _ => true
  end.

Definition op_key (o : builder_op) : string :=
  match o with
  | OpSpeed _ => speed_field
  | OpMode _ => mode_field
  | OpReverse _ => direction_field
  end.

Definition op_value (o : builder_op) : pyval :=
  match o with
  | OpSpeed v => VInt v
  | OpMode m => VInt (FanMode_int m)
  | OpReverse r => VInt (FanReverse_int r)
  end.

(** The effect of one call, and of a sequence of calls, on the items of the
    builder's mapping. *)
Definition apply_op (d : dict) (o : builder_op) : dict :=
  if op_applies o then dict_set (op_key o) (op_value o) d else d.

Definition apply_ops (os : list builder_op) (d : dict) : dict :=
  fold_left apply_op os d.

(** An item as the firmware contract wants it: a known key with an integer
    of its domain. *)
Definition wire_ok (kv : string * pyval) : Prop :=
  match kv with
  | (k, VInt z) =>
      (k = speed_field /\ 1 <= z <= 6)
      \/ (k = mode_field /\ 1 <= z <= 2)
      \/ (k = direction_field /\ 0 <= z <= 1)
  | _ => False
  end.

(** The log records a transport outcome leaves, given the record a
    transport failure is logged with. *)
Definition logged (record : exn -> log_record) (outcome : exn + dict)
  : list log_record :=
  match outcome with
  | inl e => if is_transport_failure e then [record e] else []
  | inr _ => []
  end.

(** A stand-in for [int] on strings in the examples: it refuses them all. *)
Definition no_int_of_str (s : string) : result Z :=
  Raise (ValueError ("invalid literal for int() with base 10: " +:+ repr_str s)).

(* ====================================================================== *)
(** ** Store lemmas                                                        *)
(* ====================================================================== *)

Lemma lookup_fresh (h : list dict) (d : dict) : (h ++ [d]) !! length h = Some d.
Proof. rewrite lookup_app_r by lia. by rewrite Nat.sub_diag. Qed.

Lemma insert_fresh (h : list dict) (d d' : dict) :
  <[length h := d']> (h ++ [d]) = h ++ [d'].
Proof.
  rewrite insert_app_r_alt by lia. by rewrite Nat.sub_diag.
Qed.

Lemma lookup_old (h : list dict) (d : dict) (l : loc) :
  (l < length h)%nat -> (h ++ [d]) !! l = h !! l.
Proof. intros. by rewrite lookup_app_l. Qed.

Lemma accepted_eq (reply : dict) :
  eq_str (get_or_none "result" reply) "ok" = accepted reply.
Proof.
  unfold accepted, get_or_none.
  destruct (dict_get "result" reply) as [[]|]; reflexivity.
Qed.

Lemma validate_response_cases (response sent_params : dict) :
  WizFan._validate_response response sent_params
  = if accepted response then Ok tt
    else Raise (WizLightProtocolError
                  (WizFan.protocol_message sent_params response
                     (WizFan.error_code response))).
Proof. unfold WizFan._validate_response. by rewrite accepted_eq. Qed.

(* ====================================================================== *)
(** ** How the methods run                                                 *)
(* ====================================================================== *)

(** Unfolds the monad and the store operations, and resolves accesses to
    the objects allocated last. *)
Ltac run_step :=
  first
    [ rewrite lookup_fresh
    | rewrite insert_fresh
    | progress cbv beta iota zeta delta
        [bind ret raise lift load store alloc setitem log
         set_heap add_sent add_log FanPilotBuilder.when_given]
    | progress cbn [heap sent logs fst snd negb FanPilotBuilder._payload] ].

Ltac run := repeat run_step.
Ltac run_with E := repeat first [run_step | rewrite E].

Lemma init_ok (sp : option Z) (md : option FanMode) (rv : option FanReverse)
    (w : World) :
  speed_ok sp = true ->
  FanPilotBuilder.__init__ sp md rv w
  = (Ok (FanPilotBuilder.Build (length (heap w))),
     set_heap (heap w ++ [initial_payload sp md rv]) w).
Proof.
  intros Hs. unfold FanPilotBuilder.__init__, FanPilotBuilder.speed,
    FanPilotBuilder.mode, FanPilotBuilder.reverse.
  destruct sp as [v|], md as [m|], rv as [r|]; cbn [speed_ok] in Hs;
    by run_with Hs.
Qed.

Lemma init_bad (v : Z) (md : option FanMode) (rv : option FanReverse) (w : World) :
  in_range 1 7 v = false ->
  FanPilotBuilder.__init__ (Some v) md rv w
  = (Raise (ValueError "fanSpeed must be between 1 and 6 inclusive"),
     set_heap (heap w ++ [[]]) w).
Proof.
  intros Hs. unfold FanPilotBuilder.__init__, FanPilotBuilder.speed.
  by run_with Hs.
Qed.

Lemma payload_last (h : list dict) (d : dict) (w : World) :
  heap w = h ++ [d] ->
  FanPilotBuilder.payload (FanPilotBuilder.Build (length h)) w
  = (Ok (S (length h)), set_heap (h ++ [d; d]) w).
Proof.
  intros E. unfold FanPilotBuilder.payload. run_with E.
  rewrite length_app, Nat.add_1_r, <- app_assoc. reflexivity.
Qed.

Section DeviceRuns.

Variable transport : list command -> string -> dict -> exn + dict.
Variable ip : string.

(** [_send_pilot] on a dictionary with contents [d], spelled out. *)
Lemma send_pilot_run (params : loc) (d : dict) (w : World) :
  heap w !! params = Some d ->
  WizFan._send_pilot transport ip params w =
    match d with
    | [] => (Ok tt, w)
    | _ :: _ =>
        match transport (sent w) "setPilot" d with
        | inl e => (Raise e, after_failed_send ip d e w)
        | inr reply =>
            (WizFan._validate_response reply d, add_sent (apply_command d) w)
        end
    end.
Proof.
  intros E. unfold WizFan._send_pilot, after_failed_send. run_with E.
  destruct d as [|kv d]; [reflexivity|].
  cbn [truthy negb]. unfold try_except, WizFan._do_command. rewrite E.
  destruct (transport (sent w) "setPilot" (kv :: d)) as [e|reply].
  - destruct (is_transport_failure e); reflexivity.
  - by run_with E.
Qed.

(** [_send_state] with a valid state. *)
Lemma send_state_run (state : Z) (w : World) :
  state = 0 \/ state = 1 ->
  WizFan._send_state transport ip state w =
    let d := [(power_field, VInt state)] in
    let w1 := set_heap (heap w ++ [d]) w in
    match transport (sent w) "setPilot" d with
    | inl e => (Raise e, after_failed_send ip d e w1)
    | inr reply =>
        (WizFan._validate_response reply d, add_sent (apply_command d) w1)
    end.
Proof.
  intros Hs. unfold WizFan._send_state.
  assert ((state =? FAN_STATE_OFF) || (state =? FAN_STATE_ON) = true) as ->
    by (destruct Hs; subst; reflexivity).
  run. rewrite (send_pilot_run (length (heap w)) [(power_field, VInt state)])
    by (cbn [heap set_heap]; apply lookup_fresh).
  reflexivity.
Qed.

Lemma sent_after_failed_send (d : dict) (e : exn) (w : World) :
  sent (after_failed_send ip d e w) = sent w ++ [apply_command d].
Proof. unfold after_failed_send. by destruct (is_transport_failure e). Qed.

(** A builder made by the constructor, its payload taken and sent. *)
Lemma build_and_send_run (sp : option Z) (md : option FanMode)
    (rv : option FanReverse) (w : World) :
  speed_ok sp = true ->
  (builder <- FanPilotBuilder.__init__ sp md rv ;;
   p <- FanPilotBuilder.payload builder ;;
   WizFan._send_pilot transport ip p) w =
    let d := initial_payload sp md rv in
    WizFan._send_pilot transport ip (S (length (heap w)))
      (set_heap (heap w ++ [d; d]) w).
Proof.
  intros Hs. cbv beta delta [bind]. rewrite (init_ok sp md rv w Hs).
  cbv beta iota.
  rewrite (payload_last (heap w) (initial_payload sp md rv)) by reflexivity.
  reflexivity.
Qed.

Lemma lookup_second_fresh (h : list dict) (d1 d2 : dict) :
  (h ++ [d1; d2]) !! S (length h) = Some d2.
Proof.
  rewrite lookup_app_r by lia.
  replace (S (length h) - length h)%nat with 1%nat by lia. reflexivity.
Qed.

End DeviceRuns.

(* ====================================================================== *)
(** ** Properties of the dispatcher                                        *)
(* ====================================================================== *)

Section Dispatcher.

Variable transport : transport_t.
Variable ip : string.

(** C6.  Sending an empty payload mapping is a silent no-op: [_send_pilot]
    returns normally and leaves the world as it was, so no command reaches
    the transport, no reply is awaited, nothing is logged, nothing is
    raised and no object changes. *)
Theorem send_pilot_empty_is_noop (params : loc) (w : World) :
  heap w !! params = Some [] ->
  WizFan._send_pilot transport ip params w = (Ok tt, w).
Proof. intros E. by rewrite (send_pilot_run transport ip params [] w E). Qed.

(** C2.  [turn_on()] without optional parameters hands exactly one command
    to the transport, with payload [{"fanState": 1}]; [turn_off()] hands
    exactly one, with payload [{"fanState": 0}], whose only key is the
    power-state key.  Both hold whatever the transport answers. *)
Theorem turn_on_off_send_one_power_command (w : World) :
  sent (snd (WizFan.turn_on transport ip None None None w))
  = sent w ++ [apply_command [(power_field, VInt 1)]]
  /\ sent (snd (WizFan.turn_off transport ip w))
     = sent w ++ [apply_command [(power_field, VInt 0)]]
  /\ (forall c,
        c ∈ sent_by (WizFan.turn_off transport ip) w ->
        keys (snd c) = [power_field]).
Proof.
  assert (sent (snd (WizFan.turn_off transport ip w))
          = sent w ++ [apply_command [(power_field, VInt 0)]]) as Hoff.
  { unfold WizFan.turn_off.
    rewrite (send_state_run transport ip FAN_STATE_OFF w) by (left; reflexivity).
    cbv zeta. unfold FAN_STATE_OFF.
    destruct (transport (sent w) "setPilot" [(power_field, VInt 0)]) as [e|reply].
    - cbn [snd]. by rewrite sent_after_failed_send.
    - reflexivity. }
  split; [|split; [exact Hoff|]].
  - unfold WizFan.turn_on. cbv beta delta [bind].
    rewrite (send_state_run transport ip FAN_STATE_ON w) by (right; reflexivity).
    cbv zeta. unfold FAN_STATE_ON.
    destruct (transport (sent w) "setPilot" [(power_field, VInt 1)]) as [e|reply].
    + cbn [snd]. by rewrite sent_after_failed_send.
    + by destruct (WizFan._validate_response reply [(power_field, VInt 1)]).
  - intros c. unfold sent_by. rewrite Hoff, drop_app_length.
    intros Hc. apply list_elem_of_singleton in Hc. by subst c.
Qed.

(** C1.  [turn_on(speed=3)] first hands [{"fanState": 1}] to the transport.
    When that command succeeds, it then hands [{"fanSpeed": 3}], and these
    two are all it sends; the call ends as the second command ends.  When
    the first command fails (the transport raises, or the reply is not
    accepted), the first command is all it sends, and the call raises that
    command's error. *)
Theorem turn_on_speed_3_sends_power_then_speed (w : World) :
  let power_on := [(power_field, VInt 1)] in
  let speed_3 := [(speed_field, VInt 3)] in
  let r := fst (WizFan.turn_on transport ip (Some 3) None None w) in
  let w' := snd (WizFan.turn_on transport ip (Some 3) None None w) in
  if apply_succeeds transport (sent w) power_on
  then sent w' = sent w ++ [apply_command power_on; apply_command speed_3]
       /\ r = apply_outcome transport (sent w ++ [apply_command power_on]) speed_3
  else sent w' = sent w ++ [apply_command power_on]
       /\ r = apply_outcome transport (sent w) power_on
       /\ exists e, r = Raise e.
Proof.
  cbv zeta. unfold WizFan.turn_on, apply_succeeds, apply_outcome.
  cbv beta delta [bind].
  rewrite (send_state_run transport ip FAN_STATE_ON w) by (right; reflexivity).
  cbv zeta. unfold FAN_STATE_ON.
  destruct (transport (sent w) "setPilot" [(power_field, VInt 1)]) as [e|reply].
  - cbn [fst snd]. rewrite sent_after_failed_send. eauto.
  - rewrite !validate_response_cases.
    destruct (accepted reply); cbn [fst snd]; [|by eauto].
    cbn [WizFan.is_not_none orb].
    pose proof (build_and_send_run transport ip (Some 3) None None) as Hrun.
    cbv beta delta [bind] in Hrun. rewrite Hrun by reflexivity. clear Hrun.
    cbv zeta. change (initial_payload (Some 3) None None) with [(speed_field, VInt 3)].
    rewrite (send_pilot_run transport ip _ [(speed_field, VInt 3)])
      by (cbn [heap set_heap add_sent]; apply lookup_second_fresh).
    cbn [sent set_heap add_sent].
    destruct (transport _ "setPilot" [(speed_field, VInt 3)]) as [e|reply2];
      cbn [fst snd].
    + rewrite sent_after_failed_send. cbn [sent set_heap add_sent].
      by rewrite <- app_assoc.
    + cbn [sent set_heap add_sent]. by rewrite <- app_assoc.
Qed.

(** C4.  For every integer from 1 to 6, the builder accepts the speed and
    its payload is the one-key mapping [{"fanSpeed": v}], and [set_speed]
    hands exactly that payload to the transport.  For every other integer,
    the builder method and [set_speed] raise [ValueError], and [set_speed]
    hands nothing to the transport. *)
Theorem set_speed_accepts_exactly_1_to_6 (v : Z) (w : World) :
  (1 <= v <= 6 ->
     (exists b w1 p w2,
        FanPilotBuilder.__init__ (Some v) None None w = (Ok b, w1)
        /\ FanPilotBuilder.payload b w1 = (Ok p, w2)
        /\ heap w2 !! p = Some [(speed_field, VInt v)])
     /\ sent (snd (WizFan.set_speed transport ip v w))
        = sent w ++ [apply_command [(speed_field, VInt v)]])
  /\ (~ 1 <= v <= 6 ->
       let err := ValueError "fanSpeed must be between 1 and 6 inclusive" in
       (forall b, FanPilotBuilder.speed b v w = (Raise err, w))
       /\ fst (WizFan.set_speed transport ip v w) = Raise err
       /\ sent (snd (WizFan.set_speed transport ip v w)) = sent w
       /\ logs (snd (WizFan.set_speed transport ip v w)) = logs w).
Proof.
  split.
  - intros Hv.
    assert (speed_ok (Some v) = true) as Hok
      by (cbn; unfold in_range; lia).
    split.
    + eexists _, _, _, _. split; [apply (init_ok _ _ _ _ Hok)|].
      split; [apply payload_last; reflexivity|].
      cbn [heap set_heap]. apply lookup_second_fresh.
    + unfold WizFan.set_speed.
      pose proof (build_and_send_run transport ip (Some v) None None w Hok) as Hrun.
      cbv beta delta [bind] in Hrun |- *. rewrite Hrun. clear Hrun.
      cbv zeta. change (initial_payload (Some v) None None)
        with [(speed_field, VInt v)].
      rewrite (send_pilot_run transport ip _ [(speed_field, VInt v)])
        by (cbn [heap set_heap]; apply lookup_second_fresh).
      cbn [sent set_heap].
      destruct (transport (sent w) "setPilot" [(speed_field, VInt v)])
        as [e|reply]; cbn [snd].
      * by rewrite sent_after_failed_send.
      * reflexivity.
  - intros Hv.
    assert (in_range 1 7 v = false) as Hbad by (unfold in_range; lia).
    cbv zeta. split.
    + intros b. unfold FanPilotBuilder.speed. by rewrite Hbad.
    + unfold WizFan.set_speed. cbv beta delta [bind].
      by rewrite (init_bad v None None w Hbad).
Qed.

(** C7.  When the transport raises a connection or timeout error during an
    apply-command, [_send_pilot] raises that same exception, after logging
    one record at error level; during a status query, [get_status] raises
    that same exception, after logging one record at warning level.  The
    command was handed to the transport once (no retry), nothing is
    swallowed or translated, and the log record is all that tells the final
    world from the one in which the transport raised. *)
Theorem transport_failure_propagates_unchanged (w : World) (e : exn) :
  is_transport_failure e = true ->
  (forall params d,
     heap w !! params = Some d -> d <> [] ->
     transport (sent w) "setPilot" d = inl e ->
     WizFan._send_pilot transport ip params w
     = (Raise e, add_log (send_failed_record ip e) (add_sent (apply_command d) w)))
  /\ (transport (sent w) "getPilot" [] = inl e ->
      WizFan.get_status transport ip w
      = (Raise e,
         add_log (status_failed_record ip e)
           (add_sent query_command (set_heap (heap w ++ [[]]) w)))).
Proof.
  intros He. split.
  - intros params d Hd Hne Ht.
    rewrite (send_pilot_run transport ip params d w Hd).
    destruct d; [done|]. rewrite Ht. unfold after_failed_send. by rewrite He.
  - intros Ht. unfold WizFan.get_status, try_except, WizFan._do_command.
    run. by rewrite Ht, He.
Qed.

End Dispatcher.

(* ====================================================================== *)
(** ** Properties of the builder                                           *)
(* ====================================================================== *)

Lemma setitem_run (l : loc) (k : string) (v : pyval) (d : dict) (w : World) :
  heap w !! l = Some d ->
  setitem l k v w = (Ok tt, set_heap (<[l := dict_set k v d]> (heap w)) w).
Proof. intros E. by run_with E. Qed.

(** A mutation of the object at [p] leaves every other object alone. *)
Lemma mutate_frame (p l : loc) (m : mutation) (w : World) :
  l <> p -> heap (snd (mutate p m w)) !! l = heap w !! l.
Proof.
  intros Hne. destruct m as [k v|k|]; cbn [mutate].
  - unfold setitem. run. destruct (heap w !! p) as [d|] eqn:E; run; [|done].
    rewrite E. run. by rewrite list_lookup_insert_ne.
  - unfold delitem. run. destruct (heap w !! p) as [d|] eqn:E; run; [|done].
    destruct (dict_get k d); run; [|done].
    rewrite E. run. by rewrite list_lookup_insert_ne.
  - unfold clear. run. destruct (heap w !! p) as [d|] eqn:E; run; [|done].
    rewrite E. run. by rewrite list_lookup_insert_ne.
Qed.

Lemma mutate_all_frame (p l : loc) (ms : list mutation) (w : World) :
  l <> p -> heap (mutate_all p ms w) !! l = heap w !! l.
Proof.
  intros Hne. revert w.
  induction ms as [|m ms IH]; intros w; cbn [mutate_all]; [done|].
  rewrite IH. by apply mutate_frame.
Qed.

Lemma payload_run (b : FanPilotBuilder.t) (d : dict) (w : World) :
  heap w !! FanPilotBuilder._payload b = Some d ->
  FanPilotBuilder.payload b w
  = (Ok (length (heap w)), set_heap (heap w ++ [d]) w).
Proof. intros E. unfold FanPilotBuilder.payload. by run_with E. Qed.

(** C8.  The payload accessor returns a snapshot copy: the mapping it
    returns is a new object with the items of the builder's own mapping,
    and whatever a client then does to the returned mapping (setting and
    deleting items, clearing it), the builder's own mapping keeps its
    items and a later payload access returns those same items. *)
Theorem payload_returns_a_copy (b : FanPilotBuilder.t) (d : dict) (w : World) :
  heap w !! FanPilotBuilder._payload b = Some d ->
  exists p w1,
    FanPilotBuilder.payload b w = (Ok p, w1)
    /\ p <> FanPilotBuilder._payload b
    /\ heap w1 !! p = Some d
    /\ forall ms : list mutation,
         let w2 := mutate_all p ms w1 in
         heap w2 !! FanPilotBuilder._payload b = Some d
         /\ exists p' w3,
              FanPilotBuilder.payload b w2 = (Ok p', w3)
              /\ heap w3 !! p' = Some d.
Proof.
  intros E. pose proof (lookup_lt_Some _ _ _ E) as Hlt.
  exists (length (heap w)), (set_heap (heap w ++ [d]) w).
  split; [by apply payload_run|]. split; [lia|].
  split; [apply lookup_fresh|].
  intros ms w2.
  assert (heap w2 !! FanPilotBuilder._payload b = Some d) as E2.
  { subst w2. rewrite mutate_all_frame by lia. cbn [heap set_heap].
    by rewrite lookup_old. }
  split; [exact E2|].
  eexists _, _. split; [by apply payload_run|].
  cbn [heap set_heap]. apply lookup_fresh.
Qed.

(** The keys [d[k] = v] can leave in a dictionary. *)
Lemma keys_dict_set (k k' : string) (v : pyval) (d : dict) :
  k' ∈ keys (dict_set k v d) -> k' = k \/ k' ∈ keys d.
Proof.
  unfold keys. induction d as [|[k0 v0] d IH]; cbn [dict_set map fst].
  - intros H. apply list_elem_of_singleton in H. by left.
  - destruct (String.eqb k k0) eqn:Ek; cbn [map fst]; [by right|].
    intros H. apply elem_of_cons in H as [->|H].
    + right. apply elem_of_cons. by left.
    + destruct (IH H) as [->|Hin]; [by left|].
      right. apply elem_of_cons. by right.
Qed.

Ltac in_list := repeat first [apply list_elem_of_here | apply list_elem_of_further].

Lemma power_field_not_allowed : power_field ∉ allowed_keys.
Proof.
  unfold allowed_keys. intros H.
  repeat (apply elem_of_cons in H as [H|H]; [discriminate H|]).
  by apply elem_of_nil in H.
Qed.

Lemma only_allowed_no_power (d : dict) :
  only_allowed_keys d -> power_field ∉ keys d.
Proof. intros Hd Hin. exact (power_field_not_allowed (Hd _ Hin)). Qed.

Lemma only_allowed_set (k : string) (v : pyval) (d : dict) :
  k ∈ allowed_keys -> only_allowed_keys d -> only_allowed_keys (dict_set k v d).
Proof.
  intros Hk Hd k' Hin. destruct (keys_dict_set _ _ _ _ Hin) as [->|H]; auto.
Qed.

Lemma only_allowed_initial (sp : option Z) (md : option FanMode)
    (rv : option FanReverse) :
  only_allowed_keys (initial_payload sp md rv).
Proof.
  unfold initial_payload, with_field.
  assert (only_allowed_keys []) as H0 by (intros k Hk; by apply elem_of_nil in Hk).
  destruct sp, md, rv;
    repeat (apply only_allowed_set; [by in_list|]); exact H0.
Qed.

Lemma run_op_inv (b : FanPilotBuilder.t) (o : builder_op) (w : World) :
  builder_inv b w -> builder_inv b (snd (run_op b o w)).
Proof.
  intros (d & E & Hd). pose proof (lookup_lt_Some _ _ _ E) as Hlt.
  destruct o as [v|m|r]; cbn [run_op].
  - unfold FanPilotBuilder.speed. destruct (in_range 1 7 v); cbn [negb].
    + cbv beta delta [bind]. rewrite (setitem_run _ _ _ d w E). cbn [snd set_heap].
      exists (dict_set "fanSpeed" (VInt v) d). split.
      * cbn [heap]. by apply list_lookup_insert_eq.
      * apply only_allowed_set; [by in_list|done].
    + by exists d.
  - unfold FanPilotBuilder.mode. cbv beta delta [bind].
    rewrite (setitem_run _ _ _ d w E). cbn [snd set_heap].
    eexists. split; [cbn [heap]; by apply list_lookup_insert_eq|].
    apply only_allowed_set; [by in_list|done].
  - unfold FanPilotBuilder.reverse. cbv beta delta [bind].
    rewrite (setitem_run _ _ _ d w E). cbn [snd set_heap].
    eexists. split; [cbn [heap]; by apply list_lookup_insert_eq|].
    apply only_allowed_set; [by in_list|done].
Qed.

Lemma run_ops_inv (b : FanPilotBuilder.t) (os : list builder_op) (w : World) :
  builder_inv b w -> builder_inv b (run_ops b os w).
Proof.
  revert w. induction os as [|o os IH]; intros w Hw; cbn [run_ops]; [done|].
  by apply IH, run_op_inv.
Qed.

Lemma init_inv (sp : option Z) (md : option FanMode) (rv : option FanReverse)
    (w w1 : World) (b : FanPilotBuilder.t) :
  FanPilotBuilder.__init__ sp md rv w = (Ok b, w1) -> builder_inv b w1.
Proof.
  destruct (speed_ok sp) eqn:Hs.
  - rewrite (init_ok sp md rv w Hs). intros [= <- <-].
    exists (initial_payload sp md rv). split.
    + cbn [heap set_heap FanPilotBuilder._payload]. apply lookup_fresh.
    + apply only_allowed_initial.
  - destruct sp as [v|]; [|discriminate Hs]. cbn [speed_ok] in Hs.
    by rewrite (init_bad v md rv w Hs).
Qed.

Section SentPayloads.

Variable transport : transport_t.
Variable ip : string.

Lemma sent_after_send_pilot (params : loc) (d : dict) (w : World) :
  heap w !! params = Some d -> d <> [] ->
  sent (snd (WizFan._send_pilot transport ip params w))
  = sent w ++ [apply_command d].
Proof.
  intros E Hne. rewrite (send_pilot_run transport ip params d w E).
  destruct d; [done|].
  destruct (transport (sent w) "setPilot" _) as [e|reply]; cbn [snd].
  - by rewrite sent_after_failed_send.
  - reflexivity.
Qed.

(** The commands a one-parameter setter adds to the trace. *)
Lemma sent_after_build_and_send (sp : option Z) (md : option FanMode)
    (rv : option FanReverse) (w : World) :
  speed_ok sp = true -> initial_payload sp md rv <> [] ->
  sent (snd ((builder <- FanPilotBuilder.__init__ sp md rv ;;
              p <- FanPilotBuilder.payload builder ;;
              WizFan._send_pilot transport ip p) w))
  = sent w ++ [apply_command (initial_payload sp md rv)].
Proof.
  intros Hs Hne. rewrite (build_and_send_run transport ip sp md rv w Hs).
  cbv zeta.
  rewrite (sent_after_send_pilot _ (initial_payload sp md rv)); [done| |done].
  cbn [heap set_heap]. apply lookup_second_fresh.
Qed.

(** C10.  Whatever the constructor arguments and whatever calls to
    [speed], [mode] and [reverse] follow, the payload of the builder has
    its keys among ["fanSpeed"], ["fanMode"] and ["fanRevrs"] and does not
    have the power-state key ["fanState"]; and no command that
    [set_speed], [set_mode] or [set_reverse] hands to the transport has the
    power-state key in its payload. *)
Theorem builder_payload_never_has_power_key
    (sp : option Z) (md : option FanMode) (rv : option FanReverse)
    (os : list builder_op) (w w1 : World) (b : FanPilotBuilder.t) :
  FanPilotBuilder.__init__ sp md rv w = (Ok b, w1) ->
  (exists p d w3,
     FanPilotBuilder.payload b (run_ops b os w1) = (Ok p, w3)
     /\ heap w3 !! p = Some d
     /\ (forall k, k ∈ keys d -> k ∈ [speed_field; mode_field; direction_field])
     /\ power_field ∉ keys d)
  /\ (forall v w0 c,
        c ∈ sent_by (WizFan.set_speed transport ip v) w0 -> power_field ∉ keys (snd c))
  /\ (forall v w0 c,
        c ∈ sent_by (WizFan.set_mode transport ip v) w0 -> power_field ∉ keys (snd c))
  /\ (forall v w0 c,
        c ∈ sent_by (WizFan.set_reverse transport ip v) w0 -> power_field ∉ keys (snd c)).
Proof.
  intros Hinit. split.
  { destruct (run_ops_inv b os w1 (init_inv _ _ _ _ _ _ Hinit)) as (d & E & Hd).
    eexists _, d, _. split; [by apply payload_run|].
    split; [cbn [heap set_heap]; apply lookup_fresh|].
    split; [exact Hd|by apply only_allowed_no_power]. }
  assert (forall (m : M unit) w0 d c,
            only_allowed_keys d ->
            sent (snd (m w0)) = sent w0 ++ [apply_command d] ->
            c ∈ sent_by m w0 -> power_field ∉ keys (snd c)) as Hone.
  { intros m w0 d c Hd Hs. unfold sent_by. rewrite Hs, drop_app_length.
    intros Hc. apply list_elem_of_singleton in Hc. subst c.
    by apply only_allowed_no_power. }
  split; [|split]; intros v w0 c.
  - destruct (in_range 1 7 v) eqn:Hv.
    + apply (Hone _ _ (initial_payload (Some v) None None));
        [apply only_allowed_initial|].
      by apply (sent_after_build_and_send (Some v) None None).
    + unfold sent_by, WizFan.set_speed. cbv beta delta [bind].
      rewrite (init_bad v None None w0 Hv). cbn [snd sent set_heap].
      rewrite drop_all. intros Hc. by apply elem_of_nil in Hc.
  - apply (Hone _ _ (initial_payload None (Some v) None));
      [apply only_allowed_initial|].
    by apply (sent_after_build_and_send None (Some v) None).
  - apply (Hone _ _ (initial_payload None None (Some v)));
      [apply only_allowed_initial|].
    by apply (sent_after_build_and_send None None (Some v)).
Qed.

End SentPayloads.

(* ====================================================================== *)
(** ** Properties of response validation and of the status projection      *)
(* ====================================================================== *)

(** C5.  A reply with neither an error field nor a result field is not
    accepted: validation raises [WizLightProtocolError], the extracted
    indicator is [None], and nothing else is raised. *)
Theorem reply_without_error_and_result_is_protocol_error
    (response sent_params : dict) :
  dict_get "error" response = None ->
  dict_get "result" response = None ->
  WizFan.error_code response = VNone
  /\ WizFan._validate_response response sent_params
     = Raise (WizLightProtocolError
                (WizFan.protocol_message sent_params response VNone)).
Proof.
  intros He Hr.
  assert (WizFan.error_code response = VNone) as Hc.
  { unfold WizFan.error_code, get_or_none. by rewrite He, Hr. }
  split; [exact Hc|].
  unfold WizFan._validate_response. rewrite Hc.
  unfold get_or_none. by rewrite Hr.
Qed.

Section StatusProjection.

Variable transport : transport_t.
Variable ip : string.

Lemma get_status_reply (w : World) (reply : dict) :
  transport (sent w) "getPilot" [] = inr reply ->
  WizFan.get_status transport ip w
  = (Ok reply, add_sent query_command (set_heap (heap w ++ [[]]) w)).
Proof.
  intros Ht. unfold WizFan.get_status, try_except, WizFan._do_command.
  run. by rewrite Ht.
Qed.

(** C9, as the code has it.  When the status reply holds, in its mode
    field, an integer other than 1 and 2, [get_mode] does not return it:
    it raises the [ValueError] of the enumeration's constructor (not the
    protocol error), after the one status query. *)
Theorem get_mode_rejects_unknown_mode (w : World) (reply : dict) (z : Z) :
  transport (sent w) "getPilot" [] = inr reply ->
  dict_get "fanMode" reply = Some (VInt z) ->
  z <> 1 -> z <> 2 ->
  WizFan.get_mode transport ip w
  = (Raise (ValueError (repr_int z +:+ " is not a valid FanMode")),
     add_sent query_command (set_heap (heap w ++ [[]]) w)).
Proof.
  intros Ht Hm H1 H2. unfold WizFan.get_mode. cbv beta delta [bind].
  rewrite (get_status_reply w reply Ht), Hm. unfold lift, FanMode_of.
  destruct z as [|[p|p|]|p]; try reflexivity; try done.
  destruct p; try reflexivity; done.
Qed.

End StatusProjection.

(* ====================================================================== *)
(** ** The text of [repr] determines the value                             *)
(* ====================================================================== *)

#[local] Arguments String.append !_ _ : simpl nomatch.

Lemma sapp_assoc (s1 s2 s3 : string) : (s1 +:+ s2) +:+ s3 = s1 +:+ (s2 +:+ s3).
Proof. induction s1 as [|c s1 IH]; cbn; [done|by rewrite IH]. Qed.

(** *** Integers *)

Lemma uint_text_follow (d1 : Decimal.uint) :
  forall (d2 : Decimal.uint) (r1 r2 : string),
    NilEmpty.string_of_uint d1 +:+ r1 = NilEmpty.string_of_uint d2 +:+ r2 ->
    follow_ok r1 -> follow_ok r2 -> d1 = d2 /\ r1 = r2.
Proof.
  induction d1 as [|d1 IH|d1 IH|d1 IH|d1 IH|d1 IH|d1 IH|d1 IH|d1 IH|d1 IH|d1 IH];
    intros [|d2|d2|d2|d2|d2|d2|d2|d2|d2|d2] r1 r2 H F1 F2; cbn in H;
    try (split; [reflexivity|exact H]);
    try (subst; cbn in F1; discriminate F1);
    try (subst; cbn in F2; discriminate F2);
    try discriminate H;
    injection H as H; destruct (IH _ _ _ H F1 F2) as [-> ->]; done.
Qed.

Lemma uint_text_head (d : Decimal.uint) (r : string) :
  d <> Decimal.Nil ->
  exists c s, NilEmpty.string_of_uint d +:+ r = String c s /\ is_digit c = true.
Proof. destruct d; [done|..]; intros _; cbn; eauto. Qed.

Lemma repr_int_text (z : Z) :
  repr_int z
  = match z with
    | Z0 => "0"
    | Zpos p => NilEmpty.string_of_uint (Pos.to_uint p)
    | Zneg p => String "-" (NilEmpty.string_of_uint (Pos.to_uint p))
    end.
Proof.
  unfold repr_int. destruct z as [|p|p]; cbn; [done|..];
    pose proof (Unsigned.to_uint_nonnil p); by destruct (Pos.to_uint p).
Qed.

Lemma repr_int_follow (z1 z2 : Z) (r1 r2 : string) :
  repr_int z1 +:+ r1 = repr_int z2 +:+ r2 ->
  follow_ok r1 -> follow_ok r2 -> z1 = z2 /\ r1 = r2.
Proof.
  rewrite !repr_int_text. intros H F1 F2.
  destruct z1 as [|p1|p1], z2 as [|p2|p2].
  - cbn in H. by injection H.
  - exfalso. apply (uint_text_follow (Decimal.D0 Decimal.Nil)) in H as [H _]; [|done..].
    by apply (Unsigned.to_uint_nonzero p2).
  - discriminate H.
  - exfalso. apply (uint_text_follow _ (Decimal.D0 Decimal.Nil)) in H as [H _]; [|done..].
    by apply (Unsigned.to_uint_nonzero p1).
  - apply uint_text_follow in H as [H ->]; [|done..].
    by apply Unsigned.to_uint_inj in H as ->.
  - destruct (uint_text_head (Pos.to_uint p1) r1 (Unsigned.to_uint_nonnil p1))
      as (c & s & E & Hc).
    rewrite E in H. cbn in H. injection H as -> _. discriminate Hc.
  - discriminate H.
  - destruct (uint_text_head (Pos.to_uint p2) r2 (Unsigned.to_uint_nonnil p2))
      as (c & s & E & Hc).
    rewrite E in H. cbn in H. injection H as <- _. discriminate Hc.
  - cbn in H. injection H as H. apply uint_text_follow in H as [H ->]; [|done..].
    by apply Unsigned.to_uint_inj in H as ->.
Qed.

(** *** Strings *)

Lemma quote_of_cases (s : string) : quote_of s = squote \/ quote_of s = dquote.
Proof. unfold quote_of. destruct (_ && _); auto. Qed.

Lemma unescape_escape_char (q c : ascii) (t : string) :
  q = squote \/ q = dquote ->
  unescape_head q (escape_char q c +:+ t) = Some (c, t).
Proof.
  intros [->| ->]; destruct c as [[] [] [] [] [] [] [] []]; reflexivity.
Qed.

Lemma unescape_closing_quote (q : ascii) (r : string) :
  q = squote \/ q = dquote -> unescape_head q (String q r) = None.
Proof. intros [->| ->]; reflexivity. Qed.

Lemma escape_follow (q : ascii) (s1 : string) :
  q = squote \/ q = dquote ->
  forall (s2 r1 r2 : string),
    escape q s1 +:+ String q r1 = escape q s2 +:+ String q r2 ->
    s1 = s2 /\ r1 = r2.
Proof.
  intros Hq. induction s1 as [|c1 s1 IH]; intros [|c2 s2] r1 r2 H; cbn in H.
  - by injection H.
  - apply (f_equal (unescape_head q)) in H.
    rewrite sapp_assoc, unescape_escape_char, unescape_closing_quote in H by done.
    discriminate H.
  - apply (f_equal (unescape_head q)) in H.
    rewrite sapp_assoc, unescape_escape_char, unescape_closing_quote in H by done.
    discriminate H.
  - apply (f_equal (unescape_head q)) in H.
    rewrite !sapp_assoc, !unescape_escape_char in H by done.
    injection H as -> H. by destruct (IH _ _ _ H) as [-> ->].
Qed.

Lemma repr_str_text (s r : string) :
  repr_str s +:+ r = String (quote_of s) (escape (quote_of s) s +:+ String (quote_of s) r).
Proof. unfold repr_str. cbn. by rewrite sapp_assoc. Qed.

Lemma repr_str_follow (s1 s2 r1 r2 : string) :
  repr_str s1 +:+ r1 = repr_str s2 +:+ r2 -> s1 = s2 /\ r1 = r2.
Proof.
  rewrite !repr_str_text. intros H. injection H as Hq H. rewrite <- Hq in H.
  exact (escape_follow _ _ (quote_of_cases s1) _ _ _ H).
Qed.

(** *** Lists and dictionaries *)

Section Joined.

Context {A : Type} (f : A -> string) (close : ascii).
Hypothesis close_not_comma : close <> ","%char.
Hypothesis close_not_digit : is_digit close = false.
Hypothesis item_head : forall x r, exists c s, f x +:+ r = String c s /\ c <> close.

Lemma concat_cons_text (x : A) (l : list A) (r : string) :
  String.concat ", " (map f (x :: l)) +:+ r = f x +:+ joined_tail f l r.
Proof.
  revert x. induction l as [|y l IH]; intros x; [reflexivity|].
  change (String.concat ", " (map f (x :: y :: l)))
    with (f x +:+ ", " +:+ String.concat ", " (map f (y :: l))).
  by rewrite !sapp_assoc, IH.
Qed.

Lemma joined_tail_follow_ok (l : list A) (r : string) :
  follow_ok (joined_tail f l (String close r)).
Proof. destruct l; cbn; [exact close_not_digit|reflexivity]. Qed.

Lemma joined_tail_follow (l1 : list A) :
  Forall (decodable f) l1 ->
  forall (l2 : list A) (r1 r2 : string),
    joined_tail f l1 (String close r1) = joined_tail f l2 (String close r2) ->
    l1 = l2 /\ r1 = r2.
Proof.
  induction 1 as [|x l1 Hx _ IH]; intros [|y l2] r1 r2 H; cbn in H.
  - by injection H.
  - injection H as H _. by destruct close_not_comma.
  - injection H as H _. by destruct close_not_comma.
  - injection H as H.
    destruct (Hx _ _ _ H (joined_tail_follow_ok _ _) (joined_tail_follow_ok _ _))
      as [-> H'].
    by destruct (IH _ _ _ H') as [-> ->].
Qed.

Lemma joined_follow (l1 l2 : list A) (r1 r2 : string) :
  Forall (decodable f) l1 ->
  String.concat ", " (map f l1) +:+ String close r1
  = String.concat ", " (map f l2) +:+ String close r2 ->
  l1 = l2 /\ r1 = r2.
Proof.
  intros Hl H. destruct l1 as [|x l1], l2 as [|y l2].
  - cbn in H. by injection H.
  - rewrite concat_cons_text in H. cbn in H.
    destruct (item_head y (joined_tail f l2 (String close r2))) as (c & s & E & Hc).
    rewrite E in H. injection H as H _. by destruct Hc.
  - rewrite concat_cons_text in H. cbn in H.
    destruct (item_head x (joined_tail f l1 (String close r1))) as (c & s & E & Hc).
    rewrite E in H. injection H as H _. by destruct Hc.
  - rewrite !concat_cons_text in H. inversion Hl as [|? ? Hx Hl1]; subst.
    destruct (Hx _ _ _ H (joined_tail_follow_ok _ _) (joined_tail_follow_ok _ _))
      as [-> H'].
    by destruct (joined_tail_follow l1 Hl1 _ _ _ H') as [-> ->].
Qed.

End Joined.

(** Induction on values that reaches inside lists and dictionaries. *)
Lemma pyval_nested_ind (P : pyval -> Prop) :
  P VNone ->
  (forall b, P (VBool b)) ->
  (forall z, P (VInt z)) ->
  (forall s, P (VStr s)) ->
  (forall l, Forall P l -> P (VList l)) ->
  (forall d, Forall (fun kv => P (snd kv)) d -> P (VDict d)) ->
  forall v, P v.
Proof.
  intros HNone HBool HInt HStr HList HDict. fix IH 1.
  intros [|b|z|s|l|d];
    [exact HNone|apply HBool|apply HInt|apply HStr| |].
  - apply HList. induction l as [|x l IHl]; constructor; [apply IH|exact IHl].
  - apply HDict. induction d as [|[k x] d IHd]; constructor; [apply IH|exact IHd].
Qed.

Lemma digit_head_tag (c : ascii) : is_digit c = true -> head_tag c = 4%nat.
Proof. destruct c as [[] [] [] [] [] [] [] []]; (discriminate || reflexivity). Qed.

(** A printed value begins with a character that tells its constructor. *)
Lemma repr_head (v : pyval) (r : string) :
  exists c s, repr v +:+ r = String c s /\ head_tag c = tag v.
Proof.
  destruct v as [|[]|z|s|l|d]; try (cbn; eauto; fail).
  - cbn [repr tag]. rewrite repr_int_text. destruct z as [|p|p]; [cbn; eauto| |cbn; eauto].
    destruct (uint_text_head (Pos.to_uint p) r (Unsigned.to_uint_nonnil p))
      as (c & s & E & Hc).
    exists c, s. split; [exact E|by apply digit_head_tag].
  - cbn [repr tag]. rewrite repr_str_text. eexists _, _. split; [reflexivity|].
    by destruct (quote_of_cases s) as [-> | ->].
Qed.

Lemma repr_item_head (kv : string * pyval) (r : string) :
  exists c s, repr_item kv +:+ r = String c s /\ c <> "}"%char.
Proof.
  unfold repr_item. rewrite sapp_assoc, repr_str_text. eexists _, _.
  split; [reflexivity|]. by destruct (quote_of_cases (fst kv)) as [-> | ->].
Qed.

Lemma repr_value_head (v : pyval) (r : string) :
  exists c s, repr v +:+ r = String c s /\ c <> "]"%char.
Proof.
  destruct (repr_head v r) as (c & s & E & Hc). exists c, s. split; [exact E|].
  intros ->. by destruct v as [|[]| | | |].
Qed.

Lemma repr_item_decodable (kv : string * pyval) :
  decodable repr (snd kv) -> decodable repr_item kv.
Proof.
  destruct kv as [k v]. intros Hv [k2 v2] r1 r2 H F1 F2.
  unfold repr_item in H. cbn [fst snd] in *. rewrite !sapp_assoc in H.
  apply repr_str_follow in H as [-> H]. cbn in H. injection H as H.
  apply Hv in H as [-> ->]; done.
Qed.

(** The text of a value, followed by anything that does not begin with a
    digit, determines the value and what follows. *)
Lemma repr_decodable (v : pyval) : decodable repr v.
Proof.
  induction v as [|b1|z1|s1|l1 IH|d1 IH] using pyval_nested_ind;
    intros v2 r1 r2 H F1 F2.
  all: assert (tag v2 = tag _) as Htag
    by (destruct (repr_head v2 r2) as (c2 & t2 & E2 & <-);
        match type of H with
        | repr ?v1 +:+ _ = _ =>
            destruct (repr_head v1 r1) as (c1 & t1 & E1 & <-)
        end;
        rewrite E1, E2 in H; by injection H as -> _).
  - destruct v2 as [|[]| | | |]; try discriminate Htag.
    cbn in H. by injection H.
  - destruct v2 as [|b2| | | |]; try (destruct b1; discriminate Htag).
    destruct b1, b2; try discriminate Htag; cbn in H; by injection H.
  - destruct v2 as [|[]|z2| | |]; try discriminate Htag.
    cbn [repr] in H. by destruct (repr_int_follow _ _ _ _ H F1 F2) as [-> ->].
  - destruct v2 as [|[]| |s2| |]; try discriminate Htag.
    cbn [repr] in H. by destruct (repr_str_follow _ _ _ _ H) as [-> ->].
  - destruct v2 as [|[]| | |l2|]; try discriminate Htag.
    cbn [repr] in H. rewrite !sapp_assoc in H. cbn in H. injection H as H.
    apply (joined_follow repr "]") in H as [-> ->];
      [done|done|done|apply repr_value_head|exact IH].
  - destruct v2 as [|[]| | | |d2]; try discriminate Htag.
    cbn [repr] in H. rewrite !sapp_assoc in H. cbn in H. injection H as H.
    apply (joined_follow repr_item "}") in H as [-> ->];
      [done|done|done|apply repr_item_head|].
    eapply Forall_impl; [exact IH|]. intros kv. apply repr_item_decodable.
Qed.

(** The message of the protocol error determines the payload sent and the
    reply received. *)
Lemma protocol_message_inj (s1 s2 r1 r2 : dict) (c1 c2 : pyval) :
  WizFan.protocol_message s1 r1 c1 = WizFan.protocol_message s2 r2 c2 ->
  s1 = s2 /\ r1 = r2.
Proof.
  unfold WizFan.protocol_message, repr_dict. intros H.
  apply String.app_inj in H.
  destruct (repr_decodable _ _ _ _ H eq_refl eq_refl) as [[= ->] H1].
  apply String.app_inj in H1.
  by destruct (repr_decodable _ _ _ _ H1 eq_refl eq_refl) as [[= ->] _].
Qed.

(** C3, as the code has it.  A reply is accepted exactly when its result
    field is the string ["ok"].  Any other reply raises
    [WizLightProtocolError].  The indicator is the value of the error field
    when that value is truthy, and otherwise whatever the result field
    holds ([None] when there is none).  The exception carries one message,
    made of the text of the payload sent, the text of the reply and the
    text of the indicator, and that message determines the payload, the
    reply and with them the indicator.  The reply
    [{"result": "error", "error": "invalid"}] gives the indicator
    ["invalid"]. *)
Theorem validate_response_contract (response sent_params : dict) :
  (WizFan._validate_response response sent_params = Ok tt
   <-> dict_get "result" response = Some (VStr "ok"))
  /\ (dict_get "result" response <> Some (VStr "ok") ->
      exists msg,
        WizFan._validate_response response sent_params
        = Raise (WizLightProtocolError msg)
        /\ msg = WizFan.protocol_message sent_params response
                   (WizFan.error_code response)
        /\ WizFan.error_code response
           = (if truthy (get_or_none "error" response)
              then get_or_none "error" response
              else get_or_none "result" response)
        /\ forall sent_params' response',
             WizFan.protocol_message sent_params' response'
               (WizFan.error_code response') = msg ->
             sent_params' = sent_params /\ response' = response
             /\ WizFan.error_code response' = WizFan.error_code response)
  /\ WizFan.error_code [("result", VStr "error"); ("error", VStr "invalid")]
     = VStr "invalid".
Proof.
  assert (accepted response = true <-> dict_get "result" response = Some (VStr "ok"))
    as Hacc.
  { unfold accepted. destruct (dict_get "result" response) as [[| | |s| |]|];
      try (split; intros [=]; fail).
    rewrite String.eqb_eq. split; [by intros ->|by intros [= ->]]. }
  split; [|split; [|reflexivity]].
  - rewrite validate_response_cases, <- Hacc.
    destruct (accepted response); split; done.
  - intros Hno. rewrite validate_response_cases.
    destruct (accepted response) eqn:Ha; [by destruct Hno; apply Hacc|].
    eexists. split; [reflexivity|]. split; [reflexivity|].
    split; [reflexivity|].
    intros s' r' Hmsg. by destruct (protocol_message_inj _ _ _ _ _ _ Hmsg) as [-> ->].
Qed.

(* ====================================================================== *)
(** ** The properties at concrete inputs                                   *)
(* ====================================================================== *)

(** An empty payload handed to a device that would time out: nothing is
    sent, so nothing times out. *)
Lemma send_pilot_empty_is_noop_witness :
  let w := mkWorld [[]] [] [] in
  heap w !! 0%nat = Some []
  /\ WizFan._send_pilot timeout_device sample_ip 0%nat w = (Ok tt, w).
Proof.
  split; [reflexivity|].
  apply (send_pilot_empty_is_noop timeout_device sample_ip 0%nat (mkWorld [[]] [] [])).
  reflexivity.
Defined.

(** Switching on and off a device that accepts everything. *)
Lemma turn_on_off_send_one_power_command_witness :
  sent (snd (WizFan.turn_on ok_device sample_ip None None None empty_world))
  = [apply_command [(power_field, VInt 1)]]
  /\ sent (snd (WizFan.turn_off ok_device sample_ip empty_world))
     = [apply_command [(power_field, VInt 0)]]
  /\ (apply_command [(power_field, VInt 0)]
        ∈ sent_by (WizFan.turn_off ok_device sample_ip) empty_world
      /\ keys (snd (apply_command [(power_field, VInt 0)])) = [power_field]).
Proof.
  destruct (turn_on_off_send_one_power_command ok_device sample_ip empty_world)
    as (Hon & Hoff & Hkeys).
  split; [exact Hon|]. split; [exact Hoff|].
  assert (apply_command [(power_field, VInt 0)]
            ∈ sent_by (WizFan.turn_off ok_device sample_ip) empty_world) as Hin
    by apply list_elem_of_here.
  split; [exact Hin|exact (Hkeys _ Hin)].
Defined.

(** Speed 3 is sent, speed 9 is refused before anything is sent. *)
Lemma set_speed_accepts_exactly_1_to_6_witness :
  (1 <= 3 <= 6
   /\ sent (snd (WizFan.set_speed ok_device sample_ip 3 empty_world))
      = sent empty_world ++ [apply_command [(speed_field, VInt 3)]])
  /\ (~ 1 <= 9 <= 6
      /\ fst (WizFan.set_speed ok_device sample_ip 9 empty_world)
         = Raise (ValueError "fanSpeed must be between 1 and 6 inclusive")
      /\ sent (snd (WizFan.set_speed ok_device sample_ip 9 empty_world))
         = sent empty_world).
Proof.
  split.
  - split; [lia|].
    apply (proj1 (set_speed_accepts_exactly_1_to_6 ok_device sample_ip 3 empty_world)).
    lia.
  - split; [lia|].
    destruct (proj2 (set_speed_accepts_exactly_1_to_6 ok_device sample_ip 9 empty_world))
      as (_ & Hr & Hs & _); [lia|].
    split; [exact Hr|exact Hs].
Defined.

(** A timeout during an apply-command and during a status query. *)
Lemma transport_failure_propagates_unchanged_witness :
  let e := WizLightTimeOutError "timed out" in
  let d := [(power_field, VInt 1)] in
  let w := mkWorld [d] [] [] in
  is_transport_failure e = true
  /\ WizFan._send_pilot timeout_device sample_ip 0%nat w
     = (Raise e, mkWorld [d] [apply_command d] [send_failed_record sample_ip e])
  /\ WizFan.get_status timeout_device sample_ip w
     = (Raise e, mkWorld [d; []] [query_command] [status_failed_record sample_ip e]).
Proof.
  cbv zeta. split; [reflexivity|].
  destruct (transport_failure_propagates_unchanged timeout_device sample_ip
              (mkWorld [[(power_field, VInt 1)]] [] [])
              (WizLightTimeOutError "timed out") eq_refl) as [Hs Hg].
  split.
  - apply (Hs 0%nat [(power_field, VInt 1)]); [reflexivity|discriminate|reflexivity].
  - apply Hg. reflexivity.
Defined.

(** A builder holding [{"fanSpeed": 3}]; the client clears the mapping it
    got and writes a power key into it. *)
Lemma payload_returns_a_copy_witness :
  let b := FanPilotBuilder.Build 0%nat in
  let d := [(speed_field, VInt 3)] in
  let w := mkWorld [d] [] [] in
  heap w !! FanPilotBuilder._payload b = Some d
  /\ exists p w1,
       FanPilotBuilder.payload b w = (Ok p, w1)
       /\ p <> FanPilotBuilder._payload b
       /\ heap w1 !! p = Some d
       /\ forall ms : list mutation,
            let w2 := mutate_all p ms w1 in
            heap w2 !! FanPilotBuilder._payload b = Some d
            /\ exists p' w3,
                 FanPilotBuilder.payload b w2 = (Ok p', w3)
                 /\ heap w3 !! p' = Some d.
Proof.
  cbv zeta. split; [reflexivity|].
  apply (payload_returns_a_copy (FanPilotBuilder.Build 0%nat) [(speed_field, VInt 3)]
           (mkWorld [[(speed_field, VInt 3)]] [] [])).
  reflexivity.
Defined.

(** A builder made with a speed and a mode, then used some more (one call
    is refused). *)
Lemma builder_payload_never_has_power_key_witness :
  let b := FanPilotBuilder.Build 0%nat in
  let w1 := mkWorld [[(speed_field, VInt 3); (mode_field, VInt 2)]] [] [] in
  let os := [OpSpeed 9; OpReverse WINTER; OpMode NORMAL] in
  FanPilotBuilder.__init__ (Some 3) (Some BREEZE) None empty_world = (Ok b, w1)
  /\ exists p d w3,
       FanPilotBuilder.payload b (run_ops b os w1) = (Ok p, w3)
       /\ heap w3 !! p = Some d
       /\ (forall k, k ∈ keys d -> k ∈ [speed_field; mode_field; direction_field])
       /\ power_field ∉ keys d.
Proof.
  cbv zeta. split; [reflexivity|].
  apply (builder_payload_never_has_power_key ok_device sample_ip
           (Some 3) (Some BREEZE) None
           [OpSpeed 9; OpReverse WINTER; OpMode NORMAL] empty_world).
  reflexivity.
Defined.

(** A reply that only names the method. *)
Lemma reply_without_error_and_result_is_protocol_error_witness :
  let response := [("method", VStr "setPilot")] in
  let sent_params := [(power_field, VInt 1)] in
  dict_get "error" response = None
  /\ dict_get "result" response = None
  /\ WizFan.error_code response = VNone
  /\ WizFan._validate_response response sent_params
     = Raise (WizLightProtocolError
                (WizFan.protocol_message sent_params response VNone)).
Proof.
  cbv zeta. split; [reflexivity|]. split; [reflexivity|].
  apply (reply_without_error_and_result_is_protocol_error
           [("method", VStr "setPilot")] [(power_field, VInt 1)]);
    reflexivity.
Defined.

(** The refused reply of the specification. *)
Lemma validate_response_contract_witness :
  let response := [("result", VStr "error"); ("error", VStr "invalid")] in
  let sent_params := [(speed_field, VInt 3)] in
  dict_get "result" response <> Some (VStr "ok")
  /\ exists msg,
       WizFan._validate_response response sent_params
       = Raise (WizLightProtocolError msg)
       /\ msg = WizFan.protocol_message sent_params response
                  (WizFan.error_code response)
       /\ WizFan.error_code response
          = (if truthy (get_or_none "error" response)
             then get_or_none "error" response
             else get_or_none "result" response)
       /\ forall sent_params' response',
            WizFan.protocol_message sent_params' response'
              (WizFan.error_code response') = msg ->
            sent_params' = sent_params /\ response' = response
            /\ WizFan.error_code response' = WizFan.error_code response.
Proof.
  cbv zeta. split; [discriminate|].
  apply (proj1 (proj2 (validate_response_contract
                         [("result", VStr "error"); ("error", VStr "invalid")]
                         [(speed_field, VInt 3)]))).
  discriminate.
Defined.

(** C3, where the wording of the specification fails.  The reply has an
    explicit error field holding 0; read by presence, the indicator would
    be 0, but the code falls back to the result field. *)
Lemma indicator_ignores_falsy_error_field :
  let response := [("result", VStr "error"); ("error", VInt 0)] in
  indicator_by_presence response = VInt 0
  /\ WizFan.error_code response = VStr "error"
  /\ WizFan.error_code response <> indicator_by_presence response
  /\ WizFan._validate_response response [(power_field, VInt 1)]
     = Raise (WizLightProtocolError
                "Unexpected response to setPilot {'fanState': 1}: {'result': 'error', 'error': 0} (error=error)").
Proof. cbv zeta. repeat split; (reflexivity || discriminate). Qed.

(** A status reply with mode 3. *)
Lemma get_mode_rejects_unknown_mode_witness :
  let reply := [(mode_field, VInt 3)] in
  reporting_device reply (sent empty_world) "getPilot" [] = inr reply
  /\ dict_get "fanMode" reply = Some (VInt 3)
  /\ 3 <> 1 /\ 3 <> 2
  /\ WizFan.get_mode (reporting_device reply) sample_ip empty_world
     = (Raise (ValueError "3 is not a valid FanMode"),
        mkWorld [[]] [query_command] []).
Proof.
  cbv zeta. split; [reflexivity|]. split; [reflexivity|].
  split; [lia|]. split; [lia|].
  apply (get_mode_rejects_unknown_mode (reporting_device [(mode_field, VInt 3)])
           sample_ip empty_world [(mode_field, VInt 3)] 3);
    [reflexivity|reflexivity|lia|lia].
Defined.

(** C9, where the wording of the specification fails.  With mode 3 in the
    status reply, [get_mode] raises, but what it raises is [ValueError]:
    no [WizLightProtocolError] reaches the caller. *)
Lemma get_mode_raises_value_error_not_protocol_error :
  let reply := [(mode_field, VInt 3)] in
  fst (WizFan.get_mode (reporting_device reply) sample_ip empty_world)
  = Raise (ValueError "3 is not a valid FanMode")
  /\ forall msg,
       fst (WizFan.get_mode (reporting_device reply) sample_ip empty_world)
       <> Raise (WizLightProtocolError msg).
Proof. cbv zeta. split; [reflexivity|]. intros msg. discriminate. Qed.

(** *** Runs of the module on the sample devices *)

Example repr_payload :
  repr_dict [("fanState", VInt 1)] = "{'fanState': 1}".
Proof. reflexivity. Qed.

Example repr_nested :
  repr (VList [VNone; VBool true; VInt (-12); VStr "it's"; VDict [("a\b", VList [])]])
  = "[None, True, -12, " +:+ String dquote ("it's" +:+ String dquote ", {'a\\b': []}]").
Proof. reflexivity. Qed.

Example repr_escapes :
  repr (VStr (String (ascii_of_nat 31) (String (ascii_of_nat 10) "'")))
  = String dquote ("\x1f\n'" +:+ String dquote "").
Proof. reflexivity. Qed.

Example turn_on_speed_3_on_ok_device :
  WizFan.turn_on ok_device sample_ip (Some 3) None None empty_world
  = (Ok tt,
     mkWorld [[(power_field, VInt 1)]; [(speed_field, VInt 3)]; [(speed_field, VInt 3)]]
       [apply_command [(power_field, VInt 1)]; apply_command [(speed_field, VInt 3)]]
       []).
Proof. reflexivity. Qed.

Example turn_on_speed_3_on_refusing_device :
  WizFan.turn_on refusing_device sample_ip (Some 3) None None empty_world
  = (Raise (WizLightProtocolError
              "Unexpected response to setPilot {'fanState': 1}: {'result': 'error', 'error': 'invalid'} (error=invalid)"),
     mkWorld [[(power_field, VInt 1)]] [apply_command [(power_field, VInt 1)]] []).
Proof. reflexivity. Qed.

Example turn_on_speed_3_on_timeout_device :
  WizFan.turn_on timeout_device sample_ip (Some 3) None None empty_world
  = (Raise (WizLightTimeOutError "timed out"),
     mkWorld [[(power_field, VInt 1)]] [apply_command [(power_field, VInt 1)]]
       [send_failed_record sample_ip (WizLightTimeOutError "timed out")]).
Proof. reflexivity. Qed.

Example set_mode_then_get_mode :
  fst (WizFan.get_mode (reporting_device [(mode_field, VInt 2)]) sample_ip
         (snd (WizFan.set_mode (reporting_device [(mode_field, VInt 2)]) sample_ip
                 BREEZE empty_world)))
  = Ok BREEZE.
Proof. reflexivity. Qed.

(** The builder's own mapping is shared with whoever holds its address:
    writing through [_payload] shows in later payloads, writing through
    the result of [payload] does not. *)
Example internal_reference_is_shared :
  let b := FanPilotBuilder.Build 0%nat in
  let w := mkWorld [[(speed_field, VInt 3)]] [] [] in
  heap (snd (FanPilotBuilder.payload b (snd (setitem 0%nat "fanState" (VInt 1) w))))
  !! 1%nat
  = Some [(speed_field, VInt 3); (power_field, VInt 1)]
  /\ heap (snd (FanPilotBuilder.payload b
                  (snd (setitem 1%nat "fanState" (VInt 1)
                          (snd (FanPilotBuilder.payload b w))))))
     !! 2%nat
     = Some [(speed_field, VInt 3)].
Proof. split; reflexivity. Qed.

(* ====================================================================== *)
(** ** Further properties: dictionaries and the builder                    *)
(* ====================================================================== *)

Lemma dict_get_set_eq (k : string) (v : pyval) (d : dict) :
  dict_get k (dict_set k v d) = Some v.
Proof.
  induction d as [|[k0 v0] d IH]; cbn [dict_set dict_get].
  - by rewrite String.eqb_refl.
  - destruct (String.eqb k k0) eqn:E; cbn [dict_get]; by rewrite E.
Qed.

Lemma dict_get_set_ne (k k' : string) (v : pyval) (d : dict) :
  k' <> k -> dict_get k' (dict_set k v d) = dict_get k' d.
Proof.
  intros Hne. induction d as [|[k0 v0] d IH]; cbn [dict_set dict_get].
  - by apply String.eqb_neq in Hne as ->.
  - destruct (String.eqb k k0) eqn:E; cbn [dict_get].
    + apply String.eqb_eq in E. subst k0.
      by apply String.eqb_neq in Hne as ->.
    + by rewrite IH.
Qed.

(** [d[k] = v] keeps the keys when [k] is bound, and adds [k] last when it
    is not. *)
Lemma keys_dict_set_cases (k : string) (v : pyval) (d : dict) :
  keys (dict_set k v d)
  = match dict_get k d with
    | Some _ => keys d
    | None => keys d ++ [k]
    end.
Proof.
  unfold keys. induction d as [|[k0 v0] d IH]; cbn [dict_set dict_get map fst app];
    [done|].
  destruct (String.eqb k k0) eqn:E; cbn [map fst]; [done|].
  rewrite IH. by destruct (dict_get k d).
Qed.

Lemma dict_get_none_not_key (k : string) (d : dict) :
  dict_get k d = None -> k ∉ keys d.
Proof.
  unfold keys. induction d as [|[k0 v0] d IH]; cbn [dict_get map fst].
  - intros _ H. by apply elem_of_nil in H.
  - destruct (String.eqb k k0) eqn:E; [done|]. intros Hn H.
    apply elem_of_cons in H as [->|H]; [|by apply IH].
    by rewrite String.eqb_refl in E.
Qed.

Lemma nodup_keys_dict_set (k : string) (v : pyval) (d : dict) :
  NoDup (keys d) -> NoDup (keys (dict_set k v d)).
Proof.
  intros Hd. rewrite keys_dict_set_cases.
  destruct (dict_get k d) eqn:E; [done|].
  apply NoDup_app. split; [done|]. split; [|apply NoDup_singleton].
  intros x Hx Hk. apply list_elem_of_singleton in Hk. subst x.
  by apply (dict_get_none_not_key k d).
Qed.

Lemma dict_set_elem (k : string) (v : pyval) (d : dict) (kv : string * pyval) :
  kv ∈ dict_set k v d -> kv = (k, v) \/ kv ∈ d.
Proof.
  induction d as [|[k0 v0] d IH]; cbn [dict_set].
  - intros H. apply list_elem_of_singleton in H. by left.
  - destruct (String.eqb k k0) eqn:E.
    + apply String.eqb_eq in E. subst k0. intros H.
      apply elem_of_cons in H as [->|H]; [by left|].
      right. by apply list_elem_of_further.
    + intros H. apply elem_of_cons in H as [->|H].
      * right. apply list_elem_of_here.
      * destruct (IH H) as [->|Hin]; [by left|].
        right. by apply list_elem_of_further.
Qed.

Lemma wire_ok_op (o : builder_op) : op_applies o = true -> wire_ok (op_key o, op_value o).
Proof.
  destruct o as [v|[]|[]]; cbn; unfold in_range; intros H;
    [left|right; left|right; left|right; right|right; right];
    (split; [reflexivity|lia]).
Qed.

Lemma apply_op_wire_ok (d : dict) (o : builder_op) :
  Forall wire_ok d -> Forall wire_ok (apply_op d o).
Proof.
  intros Hd. unfold apply_op. destruct (op_applies o) eqn:E; [|done].
  apply Forall_forall. intros kv Hin.
  destruct (dict_set_elem _ _ _ _ Hin) as [->|Hin'].
  - by apply wire_ok_op.
  - by apply (proj1 (Forall_forall _ _) Hd).
Qed.

Lemma apply_op_nodup (d : dict) (o : builder_op) :
  NoDup (keys d) -> NoDup (keys (apply_op d o)).
Proof.
  intros Hd. unfold apply_op. destruct (op_applies o); [|done].
  by apply nodup_keys_dict_set.
Qed.

Lemma dict_set_not_nil (k : string) (v : pyval) (d : dict) : dict_set k v d <> [].
Proof. destruct d as [|[k0 v0] d]; cbn; [done|]. by destruct (String.eqb k k0). Qed.

Lemma apply_ops_truthy (os : list builder_op) (d : dict) :
  truthy (VDict (apply_ops os d)) = truthy (VDict d) || existsb op_applies os.
Proof.
  unfold apply_ops. revert d.
  induction os as [|o os IH]; intros d; cbn [fold_left existsb].
  - by rewrite orb_false_r.
  - rewrite IH. unfold apply_op. destruct (op_applies o) eqn:E; cbn [orb].
    + pose proof (dict_set_not_nil (op_key o) (op_value o) d) as Hne.
      destruct (dict_set (op_key o) (op_value o) d); [done|].
      cbn [truthy]. by rewrite orb_true_r.
    + reflexivity.
Qed.

(** One call on a builder whose mapping holds [d]: the call returns the
    builder itself or is refused, and only the builder's mapping changes. *)
Lemma run_op_run (b : FanPilotBuilder.t) (o : builder_op) (d : dict) (w : World) :
  heap w !! FanPilotBuilder._payload b = Some d ->
  run_op b o w
  = (if op_applies o then Ok b
     else Raise (ValueError "fanSpeed must be between 1 and 6 inclusive"),
     set_heap (<[FanPilotBuilder._payload b := apply_op d o]> (heap w)) w).
Proof.
  intros E.
  assert (set_heap (<[FanPilotBuilder._payload b := d]> (heap w)) w = w) as Hid.
  { rewrite list_insert_id by done. by destruct w. }
  destruct o as [v|m|r]; cbn [run_op]; unfold apply_op; cbn [op_applies op_key op_value].
  - unfold FanPilotBuilder.speed. destruct (in_range 1 7 v); cbn [negb].
    + cbv beta delta [bind]. by rewrite (setitem_run _ _ _ d w E).
    + by rewrite Hid.
  - unfold FanPilotBuilder.mode. cbv beta delta [bind].
    by rewrite (setitem_run _ _ _ d w E).
  - unfold FanPilotBuilder.reverse. cbv beta delta [bind].
    by rewrite (setitem_run _ _ _ d w E).
Qed.

Lemma run_ops_run (b : FanPilotBuilder.t) (os : list builder_op) (d : dict) (w : World) :
  heap w !! FanPilotBuilder._payload b = Some d ->
  run_ops b os w
  = set_heap (<[FanPilotBuilder._payload b := apply_ops os d]> (heap w)) w.
Proof.
  revert d w. induction os as [|o os IH]; intros d w E; cbn [run_ops].
  - unfold apply_ops. cbn [fold_left]. rewrite list_insert_id by done. by destruct w.
  - rewrite (run_op_run b o d w E). cbn [snd].
    pose proof (lookup_lt_Some _ _ _ E) as Hlt.
    rewrite (IH (apply_op d o)) by (cbn [heap set_heap]; by apply list_lookup_insert_eq).
    cbn [heap set_heap sent logs]. unfold set_heap. f_equal.
    by rewrite list_insert_insert_eq.
Qed.

Lemma initial_payload_given (sp : option Z) (md : option FanMode)
    (rv : option FanReverse) :
  initial_payload sp md rv = given_fields sp md rv.
Proof. by destruct sp, md, rv. Qed.

Lemma speed_ok_valid (sp : option Z) : speed_ok sp = true <-> valid_speed sp.
Proof. destruct sp as [v|]; cbn; unfold in_range; [lia|done]. Qed.

Lemma init_result (sp : option Z) (md : option FanMode) (rv : option FanReverse)
    (w w1 : World) (b : FanPilotBuilder.t) :
  FanPilotBuilder.__init__ sp md rv w = (Ok b, w1) ->
  speed_ok sp = true
  /\ b = FanPilotBuilder.Build (length (heap w))
  /\ w1 = set_heap (heap w ++ [given_fields sp md rv]) w.
Proof.
  destruct (speed_ok sp) eqn:Hs.
  - rewrite (init_ok sp md rv w Hs), initial_payload_given. by intros [= <- <-].
  - destruct sp as [v|]; [|discriminate Hs]. cbn [speed_ok] in Hs.
    by rewrite (init_bad v md rv w Hs).
Qed.

Lemma given_fields_wire_ok (sp : option Z) (md : option FanMode)
    (rv : option FanReverse) :
  valid_speed sp -> Forall wire_ok (given_fields sp md rv).
Proof.
  intros Hs. unfold given_fields.
  repeat apply Forall_app_2.
  - destruct sp as [v|]; [|done]. apply Forall_singleton. left. by split.
  - destruct md as [[]|]; [| |done]; apply Forall_singleton; right; left;
      (split; [reflexivity|cbn; lia]).
  - destruct rv as [[]|]; [| |done]; apply Forall_singleton; right; right;
      (split; [reflexivity|cbn; lia]).
Qed.

Lemma given_fields_nodup (sp : option Z) (md : option FanMode)
    (rv : option FanReverse) :
  NoDup (keys (given_fields sp md rv)).
Proof.
  destruct sp, md, rv; cbn; apply (bool_decide_unpack _); by vm_compute.
Qed.

(** X1.  A constructor call with a speed from 1 to 6 (or none) gives a
    builder whose payload lists exactly the fields given, in the order
    speed, mode, direction, and touches neither the trace nor the log; with
    any other speed it raises [ValueError], whatever the mode and the
    direction. *)
Theorem constructor_payload_lists_given_fields
    (sp : option Z) (md : option FanMode) (rv : option FanReverse) (w : World) :
  (valid_speed sp ->
     exists b w1 p w2,
       FanPilotBuilder.__init__ sp md rv w = (Ok b, w1)
       /\ FanPilotBuilder.payload b w1 = (Ok p, w2)
       /\ heap w2 !! p = Some (given_fields sp md rv)
       /\ sent w2 = sent w /\ logs w2 = logs w)
  /\ (~ valid_speed sp ->
      fst (FanPilotBuilder.__init__ sp md rv w)
      = Raise (ValueError "fanSpeed must be between 1 and 6 inclusive")).
Proof.
  split.
  - intros Hs. apply speed_ok_valid in Hs.
    eexists _, _, _, _. split; [apply (init_ok _ _ _ _ Hs)|].
    split; [apply payload_last; reflexivity|].
    rewrite initial_payload_given. cbn [heap set_heap sent logs].
    split; [apply lookup_second_fresh|done].
  - intros Hs. destruct sp as [v|]; [|by destruct Hs].
    rewrite init_bad; [done|]. cbn in Hs. unfold in_range. lia.
Qed.

(** X2.  A builder is truthy exactly when a field was set: by a constructor
    argument or by a later call that was not refused. *)
Theorem builder_truthy_iff_a_field_was_set
    (sp : option Z) (md : option FanMode) (rv : option FanReverse)
    (os : list builder_op) (w w1 : World) (b : FanPilotBuilder.t) :
  FanPilotBuilder.__init__ sp md rv w = (Ok b, w1) ->
  fst (FanPilotBuilder.__bool__ b (run_ops b os w1))
  = Ok (WizFan.is_not_none sp || WizFan.is_not_none md || WizFan.is_not_none rv
        || existsb op_applies os).
Proof.
  intros Hinit. destruct (init_result _ _ _ _ _ _ Hinit) as (_ & -> & ->).
  rewrite (run_ops_run _ os (given_fields sp md rv))
    by (cbn [heap set_heap FanPilotBuilder._payload]; apply lookup_fresh).
  unfold FanPilotBuilder.__bool__. cbv beta delta [bind load ret].
  cbn [heap set_heap FanPilotBuilder._payload].
  rewrite insert_fresh, lookup_fresh. cbn [fst].
  rewrite apply_ops_truthy. by destruct sp, md, rv.
Qed.

(** X3.  A call that is not refused returns the builder itself, binds its
    key to the value given, and leaves every other key as it was; a key
    that was bound keeps its place, a new key goes last. *)
Theorem builder_call_overwrites_its_key
    (b : FanPilotBuilder.t) (o : builder_op) (d : dict) (w : World) :
  heap w !! FanPilotBuilder._payload b = Some d ->
  op_applies o = true ->
  exists d',
    fst (run_op b o w) = Ok b
    /\ heap (snd (run_op b o w)) !! FanPilotBuilder._payload b = Some d'
    /\ dict_get (op_key o) d' = Some (op_value o)
    /\ (forall k, k <> op_key o -> dict_get k d' = dict_get k d)
    /\ keys d' = match dict_get (op_key o) d with
                 | Some _ => keys d
                 | None => keys d ++ [op_key o]
                 end.
Proof.
  intros E Ho. pose proof (lookup_lt_Some _ _ _ E) as Hlt.
  exists (dict_set (op_key o) (op_value o) d).
  rewrite (run_op_run b o d w E). unfold apply_op. rewrite Ho.
  cbn [fst snd heap set_heap].
  split; [done|]. split; [by apply list_lookup_insert_eq|].
  split; [apply dict_get_set_eq|].
  split; [intros k Hk; by apply dict_get_set_ne|apply keys_dict_set_cases].
Qed.

(** X4.  Whatever the constructor arguments and the calls that follow, the
    builder's mapping holds each key once, and every item is an integer of
    its wire domain: speed from 1 to 6, mode 1 or 2, direction 0 or 1. *)
Theorem builder_payload_in_wire_domain
    (sp : option Z) (md : option FanMode) (rv : option FanReverse)
    (os : list builder_op) (w w1 : World) (b : FanPilotBuilder.t) :
  FanPilotBuilder.__init__ sp md rv w = (Ok b, w1) ->
  exists p d w3,
    FanPilotBuilder.payload b (run_ops b os w1) = (Ok p, w3)
    /\ heap w3 !! p = Some d
    /\ NoDup (keys d)
    /\ Forall wire_ok d.
Proof.
  intros Hinit. destruct (init_result _ _ _ _ _ _ Hinit) as (Hs & -> & ->).
  apply speed_ok_valid in Hs.
  assert (heap (run_ops (FanPilotBuilder.Build (length (heap w))) os
                  (set_heap (heap w ++ [given_fields sp md rv]) w))
          !! length (heap w) = Some (apply_ops os (given_fields sp md rv))) as E.
  { rewrite (run_ops_run _ os (given_fields sp md rv))
      by (cbn [heap set_heap FanPilotBuilder._payload]; apply lookup_fresh).
    cbn [heap set_heap FanPilotBuilder._payload].
    rewrite insert_fresh. apply lookup_fresh. }
  eexists _, _, _. split; [by apply payload_run|].
  split; [cbn [heap set_heap]; apply lookup_fresh|].
  unfold apply_ops. generalize (given_fields_nodup sp md rv).
  generalize (given_fields_wire_ok sp md rv Hs).
  generalize (given_fields sp md rv). clear.
  induction os as [|o os IH]; intros d Hw Hn; cbn [fold_left]; [done|].
  apply IH; [by apply apply_op_wire_ok|by apply apply_op_nodup].
Qed.

(** X5.  Calls on a builder stay local: whatever the calls and whether or
    not they are refused, nothing is handed to the transport, nothing is
    logged, and no dictionary other than the builder's own changes. *)
Theorem builder_calls_are_local
    (b : FanPilotBuilder.t) (os : list builder_op) (d : dict) (w : World) :
  heap w !! FanPilotBuilder._payload b = Some d ->
  sent (run_ops b os w) = sent w
  /\ logs (run_ops b os w) = logs w
  /\ length (heap (run_ops b os w)) = length (heap w)
  /\ forall l, l <> FanPilotBuilder._payload b ->
               heap (run_ops b os w) !! l = heap w !! l.
Proof.
  intros E. rewrite (run_ops_run b os d w E). cbn [heap sent logs set_heap].
  split; [done|]. split; [done|]. split; [apply length_insert|].
  intros l Hl. by apply list_lookup_insert_ne.
Qed.

(* ====================================================================== *)
(** ** Further properties: the dispatcher                                  *)
(* ====================================================================== *)

Lemma apply_outcome_ok (transport : transport_t) (history : list command) (d : dict) :
  apply_outcome transport history d = Ok tt
  <-> apply_succeeds transport history d = true.
Proof.
  unfold apply_outcome, apply_succeeds.
  destruct (transport history "setPilot" d) as [e|reply]; [done|].
  rewrite validate_response_cases. by destruct (accepted reply).
Qed.

Lemma apply_outcome_not_ok (transport : transport_t) (history : list command)
    (d : dict) :
  apply_succeeds transport history d = false ->
  exists e, apply_outcome transport history d = Raise e.
Proof.
  unfold apply_outcome, apply_succeeds.
  destruct (transport history "setPilot" d) as [e|reply]; [by eauto|].
  rewrite validate_response_cases. intros ->. eauto.
Qed.

Lemma given_fields_not_nil (sp : option Z) (md : option FanMode)
    (rv : option FanReverse) :
  WizFan.is_not_none sp || WizFan.is_not_none md || WizFan.is_not_none rv = true ->
  given_fields sp md rv <> [].
Proof. by destruct sp, md, rv. Qed.

Lemma given_fields_allowed (sp : option Z) (md : option FanMode)
    (rv : option FanReverse) :
  only_allowed_keys (given_fields sp md rv).
Proof. rewrite <- initial_payload_given. apply only_allowed_initial. Qed.

Section DispatcherMore.

Variable transport : transport_t.
Variable ip : string.

(** [_send_pilot] on a dictionary with items [d], in full. *)
Lemma send_pilot_full (params : loc) (d : dict) (w : World) :
  heap w !! params = Some d -> d <> [] ->
  WizFan._send_pilot transport ip params w
  = (apply_outcome transport (sent w) d,
     mkWorld (heap w) (sent w ++ [apply_command d])
       (logs w ++ logged (send_failed_record ip) (transport (sent w) "setPilot" d))).
Proof.
  intros E Hne. rewrite (send_pilot_run transport ip params d w E).
  destruct d; [done|]. unfold apply_outcome, after_failed_send, logged.
  destruct (transport (sent w) "setPilot" _) as [e|reply].
  - destruct (is_transport_failure e); [done|].
    unfold add_sent. cbn. by rewrite app_nil_r.
  - unfold add_sent. by rewrite app_nil_r.
Qed.

(** The builder made, its payload taken and sent, in full. *)
Lemma build_and_send_full (sp : option Z) (md : option FanMode)
    (rv : option FanReverse) (w : World) :
  speed_ok sp = true -> given_fields sp md rv <> [] ->
  (builder <- FanPilotBuilder.__init__ sp md rv ;;
   p <- FanPilotBuilder.payload builder ;;
   WizFan._send_pilot transport ip p) w
  = let d := given_fields sp md rv in
    (apply_outcome transport (sent w) d,
     mkWorld (heap w ++ [d; d]) (sent w ++ [apply_command d])
       (logs w ++ logged (send_failed_record ip) (transport (sent w) "setPilot" d))).
Proof.
  intros Hs Hne. rewrite (build_and_send_run transport ip sp md rv w Hs).
  cbv zeta. rewrite initial_payload_given.
  rewrite (send_pilot_full _ (given_fields sp md rv));
    [reflexivity|cbn [heap set_heap]; apply lookup_second_fresh|done].
Qed.

Lemma send_state_full (state : Z) (w : World) :
  state = 0 \/ state = 1 ->
  WizFan._send_state transport ip state w
  = let d := [(power_field, VInt state)] in
    (apply_outcome transport (sent w) d,
     mkWorld (heap w ++ [d]) (sent w ++ [apply_command d])
       (logs w ++ logged (send_failed_record ip) (transport (sent w) "setPilot" d))).
Proof.
  intros Hs. unfold WizFan._send_state.
  assert ((state =? FAN_STATE_OFF) || (state =? FAN_STATE_ON) = true) as ->
    by (destruct Hs; subst; reflexivity).
  run. rewrite (send_pilot_full (length (heap w)) [(power_field, VInt state)]);
    [reflexivity|cbn [heap]; apply lookup_fresh|done].
Qed.

(** X6.  An apply-command with a non-empty payload is handed to the
    transport exactly once and the payload object is left as it was.  The
    call ends as the command ends: with the transport's exception, whatever
    its class, or with the verdict on the reply.  A record is logged only
    for a connection or timeout error. *)
Theorem send_pilot_sends_once_and_logs_transport_failures_only
    (params : loc) (d : dict) (w : World) :
  heap w !! params = Some d -> d <> [] ->
  let w' := snd (WizFan._send_pilot transport ip params w) in
  fst (WizFan._send_pilot transport ip params w)
  = match transport (sent w) "setPilot" d with
    | inl e => Raise e
    | inr reply => WizFan._validate_response reply d
    end
  /\ heap w' = heap w
  /\ sent w' = sent w ++ [apply_command d]
  /\ logs w'
     = match transport (sent w) "setPilot" d with
       | inl e =>
           if is_transport_failure e then logs w ++ [send_failed_record ip e]
           else logs w
       | inr _ => logs w
       end.
Proof.
  intros E Hne. cbv zeta. rewrite (send_pilot_full params d w E Hne).
  cbn [fst snd heap sent logs]. unfold apply_outcome, logged.
  destruct (transport (sent w) "setPilot" d) as [e|reply].
  - destruct (is_transport_failure e); by rewrite ?app_nil_r.
  - by rewrite app_nil_r.
Qed.

(** X7.  [turn_on] with at least one parameter and an acceptable speed
    sends the power-on command alone, and when that succeeds, one second
    command with exactly the parameters given, in the order speed, mode,
    direction, and without the power-state key; the call then ends as the
    second command ends.  When the power-on command fails nothing else is
    sent, and when the second command fails no command follows it. *)
Theorem turn_on_sends_power_then_parameters
    (sp : option Z) (md : option FanMode) (rv : option FanReverse) (w : World) :
  valid_speed sp ->
  WizFan.is_not_none sp || WizFan.is_not_none md || WizFan.is_not_none rv = true ->
  let power_on := [(power_field, VInt 1)] in
  let params := given_fields sp md rv in
  let r := fst (WizFan.turn_on transport ip sp md rv w) in
  let w' := snd (WizFan.turn_on transport ip sp md rv w) in
  params <> [] /\ (power_field ∉ keys params)
  /\ (if apply_succeeds transport (sent w) power_on
      then sent w' = sent w ++ [apply_command power_on; apply_command params]
           /\ r = apply_outcome transport (sent w ++ [apply_command power_on]) params
      else sent w' = sent w ++ [apply_command power_on]
           /\ r = apply_outcome transport (sent w) power_on).
Proof.
  intros Hs Hany. cbv zeta. apply speed_ok_valid in Hs.
  pose proof (given_fields_not_nil sp md rv Hany) as Hne.
  split; [exact Hne|].
  split; [apply only_allowed_no_power, given_fields_allowed|].
  unfold WizFan.turn_on. cbv beta delta [bind].
  rewrite (send_state_full FAN_STATE_ON w) by (right; reflexivity).
  cbv zeta. unfold FAN_STATE_ON. rewrite Hany.
  destruct (apply_succeeds transport (sent w) [(power_field, VInt 1)]) eqn:Hok.
  - apply apply_outcome_ok in Hok. rewrite Hok.
    pose proof (build_and_send_full sp md rv) as Hrun.
    cbv beta delta [bind] in Hrun. rewrite Hrun by done. clear Hrun.
    cbv zeta. cbn [fst snd sent]. by rewrite <- app_assoc.
  - destruct (apply_outcome_not_ok _ _ _ Hok) as [e He]. by rewrite He.
Qed.

(** X8.  [turn_on] with a speed outside 1 to 6 still sends the power-on
    command first: the speed is checked only afterwards.  When the power-on
    command succeeds the call raises [ValueError] with the fan switched on
    and no parameter sent; when it fails the call raises that command's
    error. *)
Theorem turn_on_checks_speed_after_power_on
    (v : Z) (md : option FanMode) (rv : option FanReverse) (w : World) :
  ~ 1 <= v <= 6 ->
  let power_on := [(power_field, VInt 1)] in
  let r := fst (WizFan.turn_on transport ip (Some v) md rv w) in
  let w' := snd (WizFan.turn_on transport ip (Some v) md rv w) in
  sent w' = sent w ++ [apply_command power_on]
  /\ r = if apply_succeeds transport (sent w) power_on
         then Raise (ValueError "fanSpeed must be between 1 and 6 inclusive")
         else apply_outcome transport (sent w) power_on.
Proof.
  intros Hv. cbv zeta.
  assert (in_range 1 7 v = false) as Hbad by (unfold in_range; lia).
  unfold WizFan.turn_on. cbv beta delta [bind].
  rewrite (send_state_full FAN_STATE_ON w) by (right; reflexivity).
  cbv zeta. unfold FAN_STATE_ON.
  destruct (apply_succeeds transport (sent w) [(power_field, VInt 1)]) eqn:Hok.
  - apply apply_outcome_ok in Hok. rewrite Hok.
    cbn [WizFan.is_not_none orb]. by rewrite init_bad.
  - destruct (apply_outcome_not_ok _ _ _ Hok) as [e He]. by rewrite He.
Qed.

(** X9.  [set_mode] and [set_reverse] never refuse their argument: each
    hands exactly one command to the transport, with the one-item payload
    [{"fanMode": 1 or 2}] or [{"fanRevrs": 0 or 1}], and ends as that command
    ends; [set_speed] with a speed from 1 to 6 ends as its command ends.
    A command ends well exactly when the transport returns an accepted
    reply. *)
Theorem setters_end_as_their_command_ends (w : World) :
  (forall m,
     let d := [(mode_field, VInt (FanMode_int m))] in
     WizFan.set_mode transport ip m w
     = (apply_outcome transport (sent w) d,
        mkWorld (heap w ++ [d; d]) (sent w ++ [apply_command d])
          (logs w ++ logged (send_failed_record ip) (transport (sent w) "setPilot" d))))
  /\ (forall r,
        let d := [(direction_field, VInt (FanReverse_int r))] in
        WizFan.set_reverse transport ip r w
        = (apply_outcome transport (sent w) d,
           mkWorld (heap w ++ [d; d]) (sent w ++ [apply_command d])
             (logs w ++ logged (send_failed_record ip)
                         (transport (sent w) "setPilot" d))))
  /\ (forall v,
        1 <= v <= 6 ->
        fst (WizFan.set_speed transport ip v w)
        = apply_outcome transport (sent w) [(speed_field, VInt v)])
  /\ (forall d,
        apply_outcome transport (sent w) d = Ok tt
        <-> exists reply,
              transport (sent w) "setPilot" d = inr reply
              /\ dict_get "result" reply = Some (VStr "ok")).
Proof.
  split; [|split; [|split]].
  - intros m. exact (build_and_send_full None (Some m) None w eq_refl ltac:(done)).
  - intros r. exact (build_and_send_full None None (Some r) w eq_refl ltac:(done)).
  - intros v Hv. unfold WizFan.set_speed.
    pose proof (build_and_send_full (Some v) None None w) as Hrun.
    cbv beta delta [bind] in Hrun |- *. rewrite Hrun; [done| |done].
    cbn. unfold in_range. lia.
  - intros d. unfold apply_outcome.
    destruct (transport (sent w) "setPilot" d) as [e|reply].
    + split; [done|]. by intros (reply & [=] & _).
    + rewrite validate_response_cases. unfold accepted.
      split.
      * intros H. exists reply. split; [done|].
        destruct (dict_get "result" reply) as [[| | |s| |]|]; try done.
        destruct (String.eqb_spec s "ok"); [by subst|done].
      * intros (reply' & [= <-] & ->). by cbn.
Qed.

(** X10.  [turn_off], and [turn_on] without parameters, end as their one
    power command ends, and log only a transport failure. *)
Theorem power_commands_end_as_their_command_ends (w : World) :
  (let d := [(power_field, VInt 0)] in
   WizFan.turn_off transport ip w
   = (apply_outcome transport (sent w) d,
      mkWorld (heap w ++ [d]) (sent w ++ [apply_command d])
        (logs w ++ logged (send_failed_record ip) (transport (sent w) "setPilot" d))))
  /\ (let d := [(power_field, VInt 1)] in
      WizFan.turn_on transport ip None None None w
      = (apply_outcome transport (sent w) d,
         mkWorld (heap w ++ [d]) (sent w ++ [apply_command d])
           (logs w ++ logged (send_failed_record ip)
                       (transport (sent w) "setPilot" d)))).
Proof.
  split; cbv zeta.
  - unfold WizFan.turn_off. by rewrite send_state_full by (left; reflexivity).
  - unfold WizFan.turn_on. cbv beta delta [bind].
    rewrite send_state_full by (right; reflexivity).
    cbv zeta. unfold FAN_STATE_ON. cbn [WizFan.is_not_none orb].
    by destruct (apply_outcome transport (sent w) [(power_field, VInt 1)]) as [[]| |].
Qed.

(** X16.  [_send_state] accepts exactly the states 0 and 1: for these it
    hands to the transport one command whose payload is [{"fanState": state}]
    alone; for any other integer it raises [ValueError] and nothing is
    created, sent or logged. *)
Theorem send_state_accepts_exactly_0_and_1 (state : Z) (w : World) :
  (state = 0 \/ state = 1 ->
     sent (snd (WizFan._send_state transport ip state w))
     = sent w ++ [apply_command [(power_field, VInt state)]]
     /\ fst (WizFan._send_state transport ip state w)
        = apply_outcome transport (sent w) [(power_field, VInt state)])
  /\ (state <> 0 -> state <> 1 ->
      WizFan._send_state transport ip state w
      = (Raise (ValueError "fanState must be 0 (off) or 1 (on)"), w)).
Proof.
  split.
  - intros Hs. by rewrite (send_state_full state w Hs).
  - intros H0 H1. unfold WizFan._send_state, FAN_STATE_OFF, FAN_STATE_ON.
    destruct (state =? 0) eqn:E0; [lia|]. destruct (state =? 1) eqn:E1; [lia|].
    reflexivity.
Qed.

End DispatcherMore.

(* ====================================================================== *)
(** ** Further properties: polling                                         *)
(* ====================================================================== *)

Section Polling.

Variable transport : transport_t.
Variable ip : string.

(** [get_status], in full. *)
Lemma get_status_full (w : World) :
  WizFan.get_status transport ip w
  = (match transport (sent w) "getPilot" [] with
     | inl e => Raise e
     | inr reply => Ok reply
     end,
     mkWorld (heap w ++ [[]]) (sent w ++ [query_command])
       (logs w ++ logged (status_failed_record ip) (transport (sent w) "getPilot" []))).
Proof.
  unfold WizFan.get_status, try_except, WizFan._do_command, logged. run.
  destruct (transport (sent w) "getPilot" []) as [e|reply].
  - destruct (is_transport_failure e); run; by rewrite ?app_nil_r.
  - by rewrite app_nil_r.
Qed.

(** X11.  [get_status] hands exactly one query with an empty request body
    to the transport and returns the reply as it is, without validating
    it: a reply that reports an error is returned like any other.  An
    exception of the transport is raised again, whatever its class, and a
    record is logged only for a connection or timeout error. *)
Theorem get_status_returns_the_raw_reply (w : World) :
  let w' := snd (WizFan.get_status transport ip w) in
  sent w' = sent w ++ [("getPilot", [])]
  /\ fst (WizFan.get_status transport ip w)
     = match transport (sent w) "getPilot" [] with
       | inl e => Raise e
       | inr reply => Ok reply
       end
  /\ logs w'
     = match transport (sent w) "getPilot" [] with
       | inl e =>
           if is_transport_failure e then logs w ++ [status_failed_record ip e]
           else logs w
       | inr _ => logs w
       end
  /\ forall l, (l < length (heap w))%nat -> heap w' !! l = heap w !! l.
Proof.
  cbv zeta. rewrite get_status_full. cbn [fst snd heap sent logs].
  split; [done|]. split; [done|]. split.
  - unfold logged. destruct (transport (sent w) "getPilot" []) as [e|reply].
    + destruct (is_transport_failure e); by rewrite ?app_nil_r.
    + by rewrite app_nil_r.
  - intros l Hl. by apply lookup_old.
Qed.

(** X12.  [get_mode] reads back what [set_mode] writes: when the mode field
    of the status reply holds the integer of mode [m], it returns [m].
    Without a mode field it returns [NORMAL], and so it does for [True]. *)
Theorem get_mode_reads_back_the_mode (w : World) (reply : dict) :
  transport (sent w) "getPilot" [] = inr reply ->
  (forall m, dict_get "fanMode" reply = Some (VInt (FanMode_int m)) ->
             fst (WizFan.get_mode transport ip w) = Ok m)
  /\ (dict_get "fanMode" reply = None ->
      fst (WizFan.get_mode transport ip w) = Ok NORMAL)
  /\ (dict_get "fanMode" reply = Some (VBool true) ->
      fst (WizFan.get_mode transport ip w) = Ok NORMAL).
Proof.
  intros Ht. unfold WizFan.get_mode. cbv beta delta [bind].
  rewrite get_status_full, Ht.
  split; [|split].
  - intros m ->. by destruct m.
  - by intros ->.
  - by intros ->.
Qed.


(** X14.  [is_reversed] reads back what [set_reverse] writes: it returns
    [True] for the integer of [WINTER] and [False] for the integer of
    [SUMMER] and when the field is missing.  It never refuses a value: any
    integer other than 0 reads as reversed. *)
Theorem is_reversed_reads_back_the_direction (w : World) (reply : dict) :
  transport (sent w) "getPilot" [] = inr reply ->
  (forall r, dict_get "fanRevrs" reply = Some (VInt (FanReverse_int r)) ->
             fst (WizFan.is_reversed transport ip w)
             = Ok (match r with WINTER => true | SUMMER => false end))
  /\ (dict_get "fanRevrs" reply = None ->
      fst (WizFan.is_reversed transport ip w) = Ok false)
  /\ (forall z, dict_get "fanRevrs" reply = Some (VInt z) -> z <> 0 ->
                fst (WizFan.is_reversed transport ip w) = Ok true)
  /\ exists b, fst (WizFan.is_reversed transport ip w) = Ok b.
Proof.
  intros Ht. unfold WizFan.is_reversed. cbv beta delta [bind].
  rewrite get_status_full, Ht.
  split; [|split; [|split]].
  - intros r ->. by destruct r.
  - by intros ->.
  - intros z -> Hz. cbn. by destruct z.
  - destruct (dict_get "fanRevrs" reply); cbn; eauto.
Qed.

Variable int_of_str : string -> result Z.

(** X15.  [get_speed] returns the integer found in the speed field of the
    status reply, whatever it is: the range 1 to 6 is not checked on the
    way in.  Without a speed field it returns 0.  It hands exactly one
    query to the transport, and an exception of the transport is raised
    again. *)
Theorem get_speed_returns_the_speed_field (w : World) :
  sent (snd (WizFan.get_speed transport ip int_of_str w))
  = sent w ++ [query_command]
  /\ (forall reply,
        transport (sent w) "getPilot" [] = inr reply ->
        (forall z, dict_get "fanSpeed" reply = Some (VInt z) ->
                   fst (WizFan.get_speed transport ip int_of_str w) = Ok z)
        /\ (dict_get "fanSpeed" reply = None ->
            fst (WizFan.get_speed transport ip int_of_str w) = Ok 0))
  /\ (forall e,
        transport (sent w) "getPilot" [] = inl e ->
        fst (WizFan.get_speed transport ip int_of_str w) = Raise e).
Proof.
  unfold WizFan.get_speed. cbv beta delta [bind]. rewrite get_status_full.
  split; [|split].
  - destruct (transport (sent w) "getPilot" []) as [e|reply]; [done|].
    by destruct (dict_get "fanSpeed" reply).
  - intros reply ->. split.
    + by intros z ->.
    + by intros ->.
  - by intros e ->.
Qed.

End Polling.

(* ====================================================================== *)
(** ** The further properties at concrete inputs                           *)
(* ====================================================================== *)

(** A builder made with a speed and a direction; a speed of 7. *)
Lemma constructor_payload_lists_given_fields_witness :
  (valid_speed (Some 4)
   /\ exists b w1 p w2,
        FanPilotBuilder.__init__ (Some 4) None (Some WINTER) empty_world = (Ok b, w1)
        /\ FanPilotBuilder.payload b w1 = (Ok p, w2)
        /\ heap w2 !! p = Some [(speed_field, VInt 4); (direction_field, VInt 1)]
        /\ sent w2 = sent empty_world /\ logs w2 = logs empty_world)
  /\ (~ valid_speed (Some 7)
      /\ fst (FanPilotBuilder.__init__ (Some 7) (Some BREEZE) None empty_world)
         = Raise (ValueError "fanSpeed must be between 1 and 6 inclusive")).
Proof.
  split.
  - split; [cbn; lia|].
    apply (proj1 (constructor_payload_lists_given_fields
                    (Some 4) None (Some WINTER) empty_world)).
    cbn; lia.
  - split; [cbn; lia|].
    apply (proj2 (constructor_payload_lists_given_fields
                    (Some 7) (Some BREEZE) None empty_world)).
    cbn; lia.
Defined.

(** An empty builder stays falsy after a refused call and turns truthy with
    the first call that goes through. *)
Lemma builder_truthy_iff_a_field_was_set_witness :
  let b := FanPilotBuilder.Build 0%nat in
  let w1 := mkWorld [[]] [] [] in
  FanPilotBuilder.__init__ None None None empty_world = (Ok b, w1)
  /\ fst (FanPilotBuilder.__bool__ b (run_ops b [OpSpeed 0] w1)) = Ok false
  /\ fst (FanPilotBuilder.__bool__ b (run_ops b [OpSpeed 0; OpMode BREEZE] w1))
     = Ok true.
Proof.
  cbv zeta. split; [reflexivity|]. split.
  - apply (builder_truthy_iff_a_field_was_set None None None [OpSpeed 0]
             empty_world (mkWorld [[]] [] []) (FanPilotBuilder.Build 0%nat)).
    reflexivity.
  - apply (builder_truthy_iff_a_field_was_set None None None
             [OpSpeed 0; OpMode BREEZE]
             empty_world (mkWorld [[]] [] []) (FanPilotBuilder.Build 0%nat)).
    reflexivity.
Defined.

(** Setting the speed again on a builder that holds a speed and a mode. *)
Lemma builder_call_overwrites_its_key_witness :
  let b := FanPilotBuilder.Build 0%nat in
  let d := [(speed_field, VInt 3); (mode_field, VInt 2)] in
  let w := mkWorld [d] [] [] in
  heap w !! FanPilotBuilder._payload b = Some d
  /\ op_applies (OpSpeed 5) = true
  /\ exists d',
       fst (run_op b (OpSpeed 5) w) = Ok b
       /\ heap (snd (run_op b (OpSpeed 5) w)) !! FanPilotBuilder._payload b = Some d'
       /\ dict_get speed_field d' = Some (VInt 5)
       /\ (forall k, k <> speed_field -> dict_get k d' = dict_get k d)
       /\ keys d' = keys d.
Proof.
  cbv zeta. split; [reflexivity|]. split; [reflexivity|].
  apply (builder_call_overwrites_its_key (FanPilotBuilder.Build 0%nat) (OpSpeed 5)
           [(speed_field, VInt 3); (mode_field, VInt 2)]
           (mkWorld [[(speed_field, VInt 3); (mode_field, VInt 2)]] [] []));
    reflexivity.
Defined.

(** A builder made with a mode, then given speeds (one refused) and a
    direction. *)
Lemma builder_payload_in_wire_domain_witness :
  let b := FanPilotBuilder.Build 0%nat in
  let w1 := mkWorld [[(mode_field, VInt 1)]] [] [] in
  let os := [OpSpeed 6; OpSpeed 7; OpReverse SUMMER; OpSpeed 2] in
  FanPilotBuilder.__init__ None (Some NORMAL) None empty_world = (Ok b, w1)
  /\ exists p d w3,
       FanPilotBuilder.payload b (run_ops b os w1) = (Ok p, w3)
       /\ heap w3 !! p = Some d
       /\ NoDup (keys d)
       /\ Forall wire_ok d.
Proof.
  cbv zeta. split; [reflexivity|].
  apply (builder_payload_in_wire_domain None (Some NORMAL) None
           [OpSpeed 6; OpSpeed 7; OpReverse SUMMER; OpSpeed 2] empty_world).
  reflexivity.
Defined.

(** Calls on the first of two dictionaries, with a command already in the
    trace. *)
Lemma builder_calls_are_local_witness :
  let b := FanPilotBuilder.Build 0%nat in
  let w := mkWorld [[]; [(power_field, VInt 1)]]
             [apply_command [(power_field, VInt 1)]] [] in
  let os := [OpMode BREEZE; OpSpeed 9] in
  heap w !! FanPilotBuilder._payload b = Some []
  /\ sent (run_ops b os w) = sent w
  /\ logs (run_ops b os w) = logs w
  /\ length (heap (run_ops b os w)) = length (heap w)
  /\ forall l, l <> FanPilotBuilder._payload b ->
               heap (run_ops b os w) !! l = heap w !! l.
Proof.
  cbv zeta. split; [reflexivity|].
  apply (builder_calls_are_local (FanPilotBuilder.Build 0%nat)
           [OpMode BREEZE; OpSpeed 9] []
           (mkWorld [[]; [(power_field, VInt 1)]]
              [apply_command [(power_field, VInt 1)]] [])).
  reflexivity.
Defined.

(** A payload sent to a device that raises an exception of another class. *)
Lemma send_pilot_sends_once_and_logs_transport_failures_only_witness :
  let broken : transport_t := fun _ _ _ => inl (OtherException "boom") in
  let d := [(speed_field, VInt 2)] in
  let w := mkWorld [d] [] [] in
  heap w !! 0%nat = Some d /\ d <> []
  /\ fst (WizFan._send_pilot broken sample_ip 0%nat w) = Raise (OtherException "boom")
  /\ heap (snd (WizFan._send_pilot broken sample_ip 0%nat w)) = heap w
  /\ sent (snd (WizFan._send_pilot broken sample_ip 0%nat w)) = [apply_command d]
  /\ logs (snd (WizFan._send_pilot broken sample_ip 0%nat w)) = [].
Proof.
  cbv zeta. split; [reflexivity|]. split; [discriminate|].
  apply (send_pilot_sends_once_and_logs_transport_failures_only
           (fun _ _ _ => inl (OtherException "boom")) sample_ip 0%nat
           [(speed_field, VInt 2)] (mkWorld [[(speed_field, VInt 2)]] [] []));
    [reflexivity|discriminate].
Defined.

(** Switching on with a mode and a direction, on a device that accepts
    everything. *)
Lemma turn_on_sends_power_then_parameters_witness :
  let params := [(mode_field, VInt 2); (direction_field, VInt 1)] in
  valid_speed None
  /\ WizFan.is_not_none (None : option Z) || WizFan.is_not_none (Some BREEZE)
     || WizFan.is_not_none (Some WINTER) = true
  /\ sent (snd (WizFan.turn_on ok_device sample_ip None (Some BREEZE) (Some WINTER)
                  empty_world))
     = [apply_command [(power_field, VInt 1)]; apply_command params]
  /\ fst (WizFan.turn_on ok_device sample_ip None (Some BREEZE) (Some WINTER)
            empty_world)
     = Ok tt.
Proof.
  cbv zeta. split; [exact I|]. split; [reflexivity|].
  destruct (turn_on_sends_power_then_parameters ok_device sample_ip
              None (Some BREEZE) (Some WINTER) empty_world I eq_refl)
    as (_ & _ & Hs & Hr).
  split; [exact Hs|exact Hr].
Defined.

(** Switching on with speed 9, on a device that accepts everything. *)
Lemma turn_on_checks_speed_after_power_on_witness :
  ~ 1 <= 9 <= 6
  /\ sent (snd (WizFan.turn_on ok_device sample_ip (Some 9) None None empty_world))
     = [apply_command [(power_field, VInt 1)]]
  /\ fst (WizFan.turn_on ok_device sample_ip (Some 9) None None empty_world)
     = Raise (ValueError "fanSpeed must be between 1 and 6 inclusive").
Proof.
  split; [lia|].
  apply (turn_on_checks_speed_after_power_on ok_device sample_ip 9 None None
           empty_world).
  lia.
Defined.

(** Setting speed 2 on a device that refuses. *)
Lemma setters_end_as_their_command_ends_witness :
  1 <= 2 <= 6
  /\ fst (WizFan.set_speed refusing_device sample_ip 2 empty_world)
     = apply_outcome refusing_device (sent empty_world) [(speed_field, VInt 2)].
Proof.
  split; [lia|].
  apply (proj1 (proj2 (proj2 (setters_end_as_their_command_ends
                                refusing_device sample_ip empty_world)))).
  lia.
Defined.

(** A status query on a device that answers with an error report. *)
Lemma get_status_returns_the_raw_reply_witness :
  let w := mkWorld [[(power_field, VInt 1)]] [] [] in
  fst (WizFan.get_status refusing_device sample_ip w)
  = Ok [("result", VStr "error"); ("error", VStr "invalid")]
  /\ ((0 < length (heap w))%nat
      /\ heap (snd (WizFan.get_status refusing_device sample_ip w)) !! 0%nat
         = heap w !! 0%nat).
Proof.
  cbv zeta.
  destruct (get_status_returns_the_raw_reply refusing_device sample_ip
              (mkWorld [[(power_field, VInt 1)]] [] [])) as (_ & Hr & _ & Hh).
  split; [exact Hr|]. split; [cbn; lia|]. apply Hh. cbn; lia.
Defined.

(** A status reply with mode 2. *)
Lemma get_mode_reads_back_the_mode_witness :
  let reply := [(speed_field, VInt 3); (mode_field, VInt 2)] in
  reporting_device reply (sent empty_world) "getPilot" [] = inr reply
  /\ dict_get "fanMode" reply = Some (VInt (FanMode_int BREEZE))
  /\ fst (WizFan.get_mode (reporting_device reply) sample_ip empty_world) = Ok BREEZE.
Proof.
  cbv zeta. split; [reflexivity|]. split; [reflexivity|].
  apply (proj1 (get_mode_reads_back_the_mode
                  (reporting_device [(speed_field, VInt 3); (mode_field, VInt 2)])
                  sample_ip empty_world
                  [(speed_field, VInt 3); (mode_field, VInt 2)] eq_refl)).
  reflexivity.
Defined.


(** Status replies with direction 1 and with direction 2. *)
Lemma is_reversed_reads_back_the_direction_witness :
  let winter := [(direction_field, VInt 1)] in
  let odd := [(direction_field, VInt 2)] in
  (reporting_device winter (sent empty_world) "getPilot" [] = inr winter
   /\ fst (WizFan.is_reversed (reporting_device winter) sample_ip empty_world)
      = Ok true)
  /\ (reporting_device odd (sent empty_world) "getPilot" [] = inr odd
      /\ 2 <> 0
      /\ fst (WizFan.is_reversed (reporting_device odd) sample_ip empty_world)
         = Ok true).
Proof.
  cbv zeta. split.
  - split; [reflexivity|].
    apply (proj1 (is_reversed_reads_back_the_direction
                    (reporting_device [(direction_field, VInt 1)]) sample_ip
                    empty_world [(direction_field, VInt 1)] eq_refl) WINTER).
    reflexivity.
  - split; [reflexivity|]. split; [lia|].
    apply (proj1 (proj2 (proj2 (is_reversed_reads_back_the_direction
                    (reporting_device [(direction_field, VInt 2)]) sample_ip
                    empty_world [(direction_field, VInt 2)] eq_refl))) 2);
      [reflexivity|lia].
Defined.

(** Status replies with speed 9 and without a speed. *)
Lemma get_speed_returns_the_speed_field_witness :
  let fast := [(speed_field, VInt 9)] in
  (reporting_device fast (sent empty_world) "getPilot" [] = inr fast
   /\ fst (WizFan.get_speed (reporting_device fast) sample_ip no_int_of_str
             empty_world) = Ok 9)
  /\ (reporting_device [] (sent empty_world) "getPilot" [] = inr []
      /\ fst (WizFan.get_speed (reporting_device []) sample_ip no_int_of_str
                empty_world) = Ok 0).
Proof.
  cbv zeta. split.
  - split; [reflexivity|].
    apply (proj1 (proj1 (proj2 (get_speed_returns_the_speed_field
                    (reporting_device [(speed_field, VInt 9)]) sample_ip
                    no_int_of_str empty_world))
                    [(speed_field, VInt 9)] eq_refl) 9).
    reflexivity.
  - split; [reflexivity|].
    apply (proj2 (proj1 (proj2 (get_speed_returns_the_speed_field
                    (reporting_device []) sample_ip no_int_of_str empty_world))
                    [] eq_refl)).
    reflexivity.
Defined.

(** Power state 1, and power state 2. *)
Lemma send_state_accepts_exactly_0_and_1_witness :
  ((1 = 0 \/ 1 = 1)
   /\ sent (snd (WizFan._send_state ok_device sample_ip 1 empty_world))
      = [apply_command [(power_field, VInt 1)]])
  /\ (2 <> 0 /\ 2 <> 1
      /\ WizFan._send_state ok_device sample_ip 2 empty_world
         = (Raise (ValueError "fanState must be 0 (off) or 1 (on)"), empty_world)).
Proof.
  split.
  - split; [by right|].
    apply (proj1 (send_state_accepts_exactly_0_and_1 ok_device sample_ip 1
                    empty_world)).
    by right.
  - split; [lia|]. split; [lia|].
    apply (proj2 (send_state_accepts_exactly_0_and_1 ok_device sample_ip 2
                    empty_world)); lia.
Defined.
